(** * KnowledgeSavvy: the self-correcting RAG graph

    A shallow embedding of the orchestration core of the repository:
    the four nodes of [ai_agent/nodes] ([retrieve], [grade_documents],
    [generate], [web_search]), the two routers of [ai_agent/graph.py]
    and the graph that [graph.py] declares, together with the
    properties of the specification that concern them.

    Python dictionaries are finite maps, a key that may be missing is an
    [option], exceptions are the [Raise] branch of [result], and the
    language-model, search and retrieval back ends are functions that
    receive, besides their arguments, the number of component calls made
    so far in the run: two calls with the same arguments may therefore
    answer differently, as calls to a model do. *)

From Stdlib Require Import QArith.
From stdpp Require Import base strings gmap list numbers option.

Local Close Scope Q_scope.

Local Open Scope string_scope.
Local Open Scope list_scope.

(** ** Python values and exceptions *)

(** Scores are only stored and handed on, never computed with. *)
Definition float : Type := Q.

Inductive value : Type :=
  | VNone
  | VBool (b : bool)
  | VInt (z : Z)
  | VFloat (x : float)
  | VStr (s : string).

(** Python truth value testing, [if v:]. *)
Definition truthy (v : value) : bool :=
  match v with
  | VNone => false
  | VBool b => b
  | VInt z => negb (Z.eqb z 0)
  | VFloat x => negb (Qeq_bool x 0%Q)
  | VStr s => negb (bool_decide (s = EmptyString))
  end.

(** [d.get(key, default)] *)
Definition dict_get (d : gmap string value) (key : string) (dflt : value) : value :=
  default dflt (d !! key).

Inductive exn : Type :=
  | KeyError (key : string)
  | TypeError (msg : string)
  | AttributeError (msg : string)
  | InvalidUpdateError
  | ComponentError (msg : string).

Inductive result (A : Type) : Type :=
  | Ok (a : A)
  | Raise (e : exn).
Arguments Ok {A} a.
Arguments Raise {A} e.

(** A computation reads the call counter and either raises or returns a
    value with the new counter. *)
Definition M (A : Type) : Type := nat → result (A * nat).

Definition ret {A} (a : A) : M A := λ t, Ok (a, t).
Definition raise {A} (e : exn) : M A := λ _, Raise e.
Definition bind {A B} (m : M A) (k : A → M B) : M B :=
  λ t, match m t with
       | Ok (a, t') => k a t'
       | Raise e => Raise e
       end.

(** One call of an external component: it sees the counter, and the
    counter advances. *)
Definition call {A B} (f : nat → A → result B) (a : A) : M B :=
  λ t, match f t a with
       | Ok b => Ok (b, S t)
       | Raise e => Raise e
       end.

#[global] Instance M_ret : MRet M := @ret.
#[global] Instance M_bind : MBind M := λ A B k m, bind m k.

(** [state[key]] on a key that may be missing *)
Definition getitem {A} (key : string) (o : option A) : M A :=
  match o with
  | Some a => ret a
  | None => raise (KeyError key)
  end.

(** ** Documents, retrievers and the run state *)

(** A document is modelled by its value.  The nodes write into
    [metadata] in place; here such a write yields the updated document
    at the same position of the list that holds it. *)
Record Document : Type := mkDocument {
  page_content : string;
  metadata : gmap string value
}.

(** [d.metadata[key] = v] *)
Definition set_metadata (d : Document) (key : string) (v : value) : Document :=
  {| page_content := page_content d; metadata := <[key := v]> (metadata d) |}.

Record VectorStore : Type := mkVectorStore {
  similarity_search_with_score :
    nat → string * value → result (list (Document * float))
}.

(** The retriever handle: [vectorstore] and [search_kwargs] are
    attributes it may lack ([hasattr], [getattr] with a default). *)
Record Retriever : Type := mkRetriever {
  vectorstore : option VectorStore;
  search_kwargs : option (gmap string value);
  invoke : nat → string → result (list Document)
}.

(** An entry of [chat_history]: a dictionary (of which only the string
    valued keys matter here) or some other object. *)
Inductive entry : Type :=
  | EDict (d : gmap string string)
  | EOther.

Module state.
(** [GraphState] is a dictionary: every key may be missing (outer
    [option]); [documents], [retriever] and [chat_history] may also be
    present and hold Python's [None] (inner [option]).  The
    dictionary a node returns has the same shape. *)
Record GraphState : Type := mkGraphState {
  question : option string;
  generation : option string;
  web_search : option bool;
  documents : option (option (list Document));
  retriever : option (option Retriever);
  chat_history : option (option (list entry))
}.

Definition empty : GraphState :=
  mkGraphState None None None None None None.
End state.
Abbreviation GraphState := state.GraphState.

(** The graph writes the keys of a node's returned dictionary over the
    run state; the keys the node does not return keep their value. *)
Definition apply_update (st upd : GraphState) : GraphState :=
  {| state.question := state.question upd ∪ state.question st;
     state.generation := state.generation upd ∪ state.generation st;
     state.web_search := state.web_search upd ∪ state.web_search st;
     state.documents := state.documents upd ∪ state.documents st;
     state.retriever := state.retriever upd ∪ state.retriever st;
     state.chat_history := state.chat_history upd ∪ state.chat_history st |}.

(** ** The structured outputs of the graders *)

Record GradeDocuments : Type := mkGradeDocuments {
  relevance : bool;
  relevance_score : float
}.

(** [model_dump()] of a validated [GradeDocuments]: both fields. *)
Definition model_dump (g : GradeDocuments) : gmap string value :=
  {[ "relevance" := VBool (relevance g);
     "relevance_score" := VFloat (relevance_score g) ]}.

Record GraderInput : Type := mkGraderInput {
  gi_question : string;
  gi_document : string;
  gi_similarity_score : value
}.

Record GenerationInput : Type := mkGenerationInput {
  gen_context : option (list Document);
  gen_question : string;
  gen_chat_history : string
}.

Record TavilyResult : Type := mkTavilyResult {
  title : string;
  url : string;
  content : string;
  score : float
}.

(** The newline character of ["\n"]. *)
Definition nl : string := String (Ascii.ascii_of_nat 10) EmptyString.

(** ** The graph machinery that [graph.py] uses *)

(** Modelled from the spec: [ai_agent/consts.py], which defines the
    step names that [graph.py] imports, is not among the sources; the
    specification names the four steps [RETRIEVE], [GRADE_DOCUMENTS],
    [GENERATE] and [WEBSEARCH], and [END] is the library's end marker. *)
Inductive Node : Type := RETRIEVE | GRADE_DOCUMENTS | GENERATE | WEBSEARCH.

Inductive target : Type :=
  | To (n : Node)
  | END.

(** What a router returns: a step name or a literal string. *)
Inductive label : Type :=
  | LNode (n : Node)
  | LStr (s : string).

#[global] Instance Node_eq_dec : EqDecision Node.
Proof. solve_decision. Defined.
#[global] Instance label_eq_dec : EqDecision label.
Proof. solve_decision. Defined.

(** A [StateGraph] under construction: nodes, the entry point, the
    plain edges and, per source node, a router with its path map. *)
Record StateGraph : Type := mkStateGraph {
  nodes : list (Node * (GraphState → M GraphState));
  entry_point : option Node;
  edges : list (Node * target);
  branches : list (Node * ((GraphState → M label) * list (label * target)))
}.

Definition new_graph : StateGraph := mkStateGraph [] None [] [].

Definition add_node (n : Node) (action : GraphState → M GraphState)
    (g : StateGraph) : StateGraph :=
  mkStateGraph (nodes g ++ [(n, action)]) (entry_point g) (edges g) (branches g).

Definition set_entry_point (n : Node) (g : StateGraph) : StateGraph :=
  mkStateGraph (nodes g) (Some n) (edges g) (branches g).

Definition add_edge (a : Node) (b : target) (g : StateGraph) : StateGraph :=
  mkStateGraph (nodes g) (entry_point g) (edges g ++ [(a, b)]) (branches g).

Definition add_conditional_edges (a : Node) (path : GraphState → M label)
    (path_map : list (label * target)) (g : StateGraph) : StateGraph :=
  mkStateGraph (nodes g) (entry_point g) (edges g)
    (branches g ++ [(a, (path, path_map))]).

Fixpoint assoc {K V} `{EqDecision K} (k : K) (l : list (K * V)) : option V :=
  match l with
  | [] => None
  | (k', v) :: l => if decide (k = k') then Some v else assoc k l
  end.

(** The steps a target schedules: an edge or a routing decision whose
    target is [END] schedules no step. *)
Definition scheduled (b : target) : list Node :=
  match b with
  | To n => [n]
  | END => []
  end.

(** The steps scheduled by the plain edges leaving [n]. *)
Definition edge_targets (g : StateGraph) (n : Node) : list Node :=
  flat_map (λ e, if decide (e.1 = n) then scheduled e.2 else []) (edges g).

(** The steps scheduled by the routers attached to [n]: each router
    reads the state and its decision is looked up in its path map. *)
Fixpoint branch_targets
    (bs : list (Node * ((GraphState → M label) * list (label * target))))
    (n : Node) (st : GraphState) : M (list Node) :=
  match bs with
  | [] => mret []
  | (a, (path, path_map)) :: bs =>
      if decide (a = n) then
        l ← path st;
        b ← match assoc l path_map with
            | Some b => mret b
            | None => raise (KeyError "path_map")
            end;
        more ← branch_targets bs n st;
        mret (scheduled b ++ more)
      else branch_targets bs n st
  end.

(** One superstep: the node runs on the state, the dictionary it
    returns is written over the state, and the edges and routers that
    leave the node schedule the steps of the next superstep (each at
    most once). *)
Definition superstep (g : StateGraph) (n : Node) (st : GraphState)
    : M (GraphState * list Node) :=
  action ← match assoc n (nodes g) with
           | Some action => mret action
           | None => raise (KeyError "node")
           end;
  upd ← action st;
  let st := apply_update st upd in
  routed ← branch_targets (branches g) n st;
  mret (st, remove_dups (edge_targets g n ++ routed)).

Inductive outcome : Type :=
  | Finished (st : GraphState)
  | Failed (e : exn)
  | Running (active : list Node) (st : GraphState) (t : nat).


(** The run loop.  A run is over, with the state as its result, at the
    first superstep for which no step is scheduled; the graph has no
    other way to end than that and an exception.  [fuel] bounds the
    supersteps executed here: [Running] says that the run was still
    going on when it ran out.  (The library can cut a run short with an
    error after a number of supersteps fixed in the run's
    configuration; that cap is a setting of the library, neither set
    nor declared by [graph.py], and a run it stops is one that is
    [Running] here.)  Two steps scheduled together would both write
    [question], which the graph refuses. *)
Fixpoint run (g : StateGraph) (fuel : nat) (active : list Node)
    (st : GraphState) (t : nat) : outcome :=
  match active with
  | [] => Finished st
  | [n] =>
      match fuel with
      | 0 => Running active st t
      | S fuel =>
          match superstep g n st t with
          | Ok ((st, next), t) => run g fuel next st t
          | Raise e => Failed e
          end
      end
  | _ => Failed InvalidUpdateError
  end.

(** ** [config/settings.py] *)

(** The settings read here: the database pieces and the two API keys
    that the model wrappers inject.  Each is an [Optional[str]]. *)
Record AppSettings : Type := mkAppSettings {
  postgres_user : option string;
  postgres_password : option string;
  postgres_server : option string;
  postgres_db : option string;
  database_url : option string;
  google_api_key : option string;
  cohere_api_key : option string
}.

(** Truth value of an [Optional[str]]: set and not empty. *)
Definition given (o : option string) : bool :=
  match o with
  | Some s => negb (bool_decide (s = EmptyString))
  | None => false
  end.

Definition resolved_database_url (s : AppSettings) : option string :=
  if given (database_url s) then database_url s
  else if forallb given [ postgres_user s; postgres_password s;
                          postgres_server s; postgres_db s ] then
    Some ("postgresql+psycopg://" +:+ default EmptyString (postgres_user s)
            +:+ ":" +:+ default EmptyString (postgres_password s)
            +:+ "@" +:+ default EmptyString (postgres_server s)
            +:+ "/" +:+ default EmptyString (postgres_db s))
  else None.

(** ** [ai_models]: configuration, wrappers and factories *)

Inductive ModelProvider : Type := COHERE | GOOGLE.

Inductive ModelType : Type :=
  | EMBEDDING
  | GENERATOR
  | DOCUMENT_GRADING
  | ANSWER_GROUNDING.

(** One entry of [ModelConfig.models]. *)
Record ModelEntry : Type := mkModelEntry {
  entry_provider : ModelProvider;
  entry_model_name : string;
  entry_params : gmap string value
}.

(** The default [ModelConfig.models] of [ai_models/config.py]. *)
Definition default_models (type : ModelType) : option ModelEntry :=
  Some match type with
       | EMBEDDING =>
           mkModelEntry COHERE "embed-v4.0" {[ "max_retries" := VInt 10 ]}
       | GENERATOR =>
           mkModelEntry COHERE "command-a-03-2025"
             {[ "temperature" := VFloat (3 # 10)%Q ]}
       | DOCUMENT_GRADING =>
           mkModelEntry GOOGLE "gemini-2.5-flash"
             {[ "temperature" := VFloat (1 # 10)%Q ]}
       | ANSWER_GROUNDING =>
           mkModelEntry GOOGLE "gemini-2.5-flash"
             {[ "temperature" := VFloat 0%Q ]}
       end.

(** The two wrappers, [LLMModel] and [EmbeddingModel]. *)
Inductive wrapper : Type := LLMModel | EmbeddingModel.

Inductive client_class : Type :=
  | ChatCohere
  | ChatGoogleGenerativeAI
  | CohereEmbeddings
  | GoogleGenerativeAIEmbeddings.

(** A call [Class(model=model_name, **params)] of a client class. *)
Record ClientCall : Type := mkClientCall {
  call_class : client_class;
  call_model : string;
  call_kwargs : gmap string value
}.

Section ai_models.

(** The client classes of the provider libraries: what constructing a
    client returns, or the exception it raises. *)
Variable Client : Type.
Variable construct : ClientCall → result Client.

Variable settings : AppSettings.

(** [_initialize_client] of the two wrappers: the provider picks the
    class and the API key of the settings, which is written into a
    copy of the parameters when it is set.  A ["model"] among the
    parameters collides with the [model=] keyword of the call. *)
Definition _initialize_client (w : wrapper) (provider : ModelProvider)
    (model_name : string) (params : gmap string value) : result Client :=
  let '(class, key_name, key) :=
    match provider, w with
    | COHERE, LLMModel =>
        (ChatCohere, "cohere_api_key", cohere_api_key settings)
    | COHERE, EmbeddingModel =>
        (CohereEmbeddings, "cohere_api_key", cohere_api_key settings)
    | GOOGLE, LLMModel =>
        (ChatGoogleGenerativeAI, "google_api_key", google_api_key settings)
    | GOOGLE, EmbeddingModel =>
        (GoogleGenerativeAIEmbeddings, "google_api_key", google_api_key settings)
    end in
  let params :=
    if given key then <[key_name := VStr (default EmptyString key)]> params
    else params in
  match params !! "model" with
  | Some _ =>
      Raise (TypeError "got multiple values for keyword argument 'model'")
  | None => construct (mkClientCall class model_name params)
  end.

(** The body shared by the four [create_..._model] methods: the entry
    of the configuration, the caller's provider and model name when
    given, the caller's keyword arguments over the configured
    parameters, then the wrapper's client. *)
Definition create_model (w : wrapper) (type : ModelType)
    (models : ModelType → option ModelEntry)
    (provider : option ModelProvider) (model_name : option string)
    (kwargs : gmap string value) : result Client :=
  match models type with
  | None => Raise (KeyError "ModelType")
  | Some model_config =>
      let provider := default (entry_provider model_config) provider in
      let model_name :=
        if given model_name then default EmptyString model_name
        else entry_model_name model_config in
      let params := kwargs ∪ entry_params model_config in
      _initialize_client w provider model_name params
  end.

(** The client class and the API key that go with a provider. *)
Definition class_of (w : wrapper) (provider : ModelProvider) : client_class :=
  match provider, w with
  | COHERE, LLMModel => ChatCohere
  | COHERE, EmbeddingModel => CohereEmbeddings
  | GOOGLE, LLMModel => ChatGoogleGenerativeAI
  | GOOGLE, EmbeddingModel => GoogleGenerativeAIEmbeddings
  end.

Definition key_name_of (provider : ModelProvider) : string :=
  match provider with
  | COHERE => "cohere_api_key"
  | GOOGLE => "google_api_key"
  end.

Definition key_of (provider : ModelProvider) : option string :=
  match provider with
  | COHERE => cohere_api_key settings
  | GOOGLE => google_api_key settings
  end.

Definition create_embedding_model := create_model EmbeddingModel EMBEDDING.
Definition create_generator_model := create_model LLMModel GENERATOR.
Definition create_document_grading_model :=
  create_model LLMModel DOCUMENT_GRADING.
Definition create_answer_grounding_model :=
  create_model LLMModel ANSWER_GROUNDING.

End ai_models.

(** ** Sample components and states, for the concrete runs below *)

Module sample.

Definition doc_a : Document := mkDocument "alpha" ∅.
Definition doc_b : Document :=
  mkDocument "beta" {[ "similarity_score" := VFloat (1 # 2)%Q ]}.

Definition hit : TavilyResult :=
  mkTavilyResult "Title" "https://example.org" "body" (1 # 3)%Q.

(** A grader that finds "alpha" relevant and nothing else. *)
Definition grader (t : nat) (i : GraderInput) : result (gmap string value) :=
  Ok (model_dump
        (mkGradeDocuments (bool_decide (gi_document i = "alpha")) (3 # 4)%Q)).



(** A grader whose answers lack [relevance]. *)
Definition grader_without_relevance (t : nat) (i : GraderInput)
    : result (gmap string value) :=
  Ok {[ "relevance_score" := VFloat (9 # 10)%Q ]}.

Definition generator (t : nat) (i : GenerationInput) : result string :=
  Ok "answer".

Definition never_grounded (t : nat) (i : option (list Document) * string)
    : result bool := Ok false.
Definition grounded (t : nat) (i : option (list Document) * string)
    : result bool := Ok true.
Definition addresses (t : nat) (i : string * string) : result bool := Ok true.
Definition off_topic (t : nat) (i : string * string) : result bool := Ok false.

(** An answer grader that rejects the answers graded before call 5. *)
Definition addresses_later (t : nat) (i : string * string) : result bool :=
  Ok (bool_decide (5 ≤ t)%nat).

Definition search (t : nat) (q : string) : result (list TavilyResult) :=
  Ok [hit].
Definition search_nothing (t : nat) (q : string) : result (list TavilyResult) :=
  Ok [].

Definition store : VectorStore :=
  mkVectorStore (λ _ _, Ok [(doc_a, (1 # 2)%Q); (doc_b, (1 # 4)%Q)]).
Definition scored_retriever : Retriever :=
  mkRetriever (Some store) (Some {[ "k" := VInt 3 ]}) (λ _ _, Ok []).
Definition plain_retriever : Retriever :=
  mkRetriever None None (λ _ _, Ok [doc_a]).

Definition input : GraphState :=
  {| state.question := Some "q"; state.generation := None;
     state.web_search := None; state.documents := None;
     state.retriever := Some (Some plain_retriever);
     state.chat_history := None |}.

Definition retrieved_state : GraphState :=
  {| state.question := Some "q"; state.generation := None;
     state.web_search := None;
     state.documents := Some (Some [doc_a; doc_b]);
     state.retriever := Some (Some scored_retriever);
     state.chat_history :=
       Some (Some [ EDict {[ "role" := "user"; "content" := "hi" ]};
                    EOther;
                    EDict {[ "role" := "system"; "content" := "x" ]};
                    EDict {[ "role" := "assistant"; "content" := "hello" ]} ]) |}.

Definition grades : list GradeDocuments :=
  [ mkGradeDocuments true (3 # 4)%Q; mkGradeDocuments false (3 # 4)%Q ].

(** A retriever that finds nothing, and a generator that fails. *)
Definition empty_retriever : Retriever :=
  mkRetriever None None (λ _ _, Ok []).

Definition empty_input : GraphState :=
  {| state.question := Some "q"; state.generation := None;
     state.web_search := None; state.documents := None;
     state.retriever := Some (Some empty_retriever);
     state.chat_history := None |}.

Definition generator_failing (t : nat) (i : GenerationInput) : result string :=
  Raise (ComponentError "timeout").

(** Six entries of which none gives a line, after one that would. *)
Definition user_turn : entry :=
  EDict {[ "role" := "user"; "content" := "hi" ]}.
Definition system_turn : entry :=
  EDict {[ "role" := "system"; "content" := "x" ]}.
Definition six_system_turns : list entry :=
  [system_turn; EOther; system_turn; EOther; system_turn; system_turn].

Definition some_settings : AppSettings :=
  {| postgres_user := Some "u"; postgres_password := Some EmptyString;
     postgres_server := Some "h"; postgres_db := Some "d";
     database_url := None;
     google_api_key := None; cohere_api_key := Some "settings-key" |}.

Definition asked_state : GraphState :=
  {| state.question := Some "q"; state.generation := None;
     state.web_search := None; state.documents := None;
     state.retriever := None; state.chat_history := None |}.

End sample.

(** ** The nodes *)

Section agent.

(** The module-level components of [ai_agent/chains] and the search
    tool of [nodes/web_search.py].  [retrieval_grader] stands for
    [retrieval_grader.invoke(...)] followed by [.model_dump()]: it
    yields the dumped dictionary, or the exception raised on the way.
    The two other graders yield the [binary_score] of their answer. *)
Variable retrieval_grader : nat → GraderInput → result (gmap string value).
Variable generation_chain : nat → GenerationInput → result string.
Variable hallucination_grader : nat → option (list Document) * string → result bool.
Variable answer_grader : nat → string * string → result bool.
Variable web_search_tool : nat → string → result (list TavilyResult).

(** *** [nodes/retrieve.py] *)

(** The loop [for doc, score in docs_with_scores]; [float(score)] is
    the score itself. *)
Fixpoint retrieve_loop (docs_with_scores : list (Document * float))
    (documents : list Document) : list Document :=
  match docs_with_scores with
  | [] => documents
  | (doc, score) :: rest =>
      let doc := set_metadata doc "similarity_score" (VFloat score) in
      retrieve_loop rest (documents ++ [doc])
  end.

Definition retrieve (st : GraphState) : M GraphState :=
  question ← getitem "question" (state.question st);
  retriever ← getitem "retriever" (state.retriever st);
  documents ←
    match retriever with
    | None => raise (AttributeError "invoke")
    | Some retriever =>
        match vectorstore retriever with
        | Some vs =>
            let k := dict_get (default ∅ (search_kwargs retriever)) "k" (VInt 4) in
            docs_with_scores ← call (similarity_search_with_score vs) (question, k);
            mret (retrieve_loop docs_with_scores [])
        | None => call (invoke retriever) question
        end
    end;
  mret {| state.documents := Some (Some documents);
          state.question := Some question;
          state.generation := None; state.web_search := None;
          state.retriever := None; state.chat_history := None |}.

(** *** [nodes/grade_documents.py] *)

Definition grader_input (question : string) (d : Document) : GraderInput :=
  {| gi_question := question;
     gi_document := page_content d;
     gi_similarity_score := dict_get (metadata d) "similarity_score" (VStr "unknown") |}.

(** The loop [for d in documents], with its two accumulators. *)
Fixpoint grade_loop (question : string) (documents : list Document)
    (filtered_docs : list Document) (web_search : bool) : M (list Document * bool) :=
  match documents with
  | [] => mret (filtered_docs, web_search)
  | d :: rest =>
      score ← call retrieval_grader (grader_input question d);
      let grade := dict_get score "relevance" (VStr "no") in
      if truthy grade then
        let d := set_metadata d "relevance_score"
                   (dict_get score "relevance_score" (VFloat 0%Q)) in
        grade_loop question rest (filtered_docs ++ [d]) web_search
      else
        grade_loop question rest filtered_docs true
  end.

Definition grade_documents (st : GraphState) : M GraphState :=
  question ← getitem "question" (state.question st);
  documents ← getitem "documents" (state.documents st);
  match documents with
  | None => raise (TypeError "'NoneType' object is not iterable")
  | Some documents =>
      '(filtered_docs, web_search) ← grade_loop question documents [] false;
      mret {| state.documents := Some (Some filtered_docs);
              state.question := Some question;
              state.web_search := Some web_search;
              state.generation := None;
              state.retriever := None; state.chat_history := None |}
  end.

(** *** [nodes/generate.py] *)

(** [sep.join(items)] *)
Fixpoint join (sep : string) (items : list string) : string :=
  match items with
  | [] => EmptyString
  | [x] => x
  | x :: rest => x +:+ sep +:+ join sep rest
  end.

(** [l[-6:]] *)
Definition last6 {A} (l : list A) : list A := drop (length l - 6) l.

Definition no_previous : string := "No previous conversation.".

(** The loop [for entry in chat_history[-6:]] over [history_items]. *)
Fixpoint history_loop (entries : list entry) (history_items : list string)
    : list string :=
  match entries with
  | [] => history_items
  | EOther :: rest => history_loop rest history_items
  | EDict d :: rest =>
      let role := default EmptyString (d !! "role") in
      let content := default EmptyString (d !! "content") in
      if negb (bool_decide (role = EmptyString))
   && negb (bool_decide (content = EmptyString)) then
        if bool_decide (role = "user") then
          history_loop rest (history_items ++ ["User: " +:+ content])
        else if bool_decide (role = "assistant") then
          history_loop rest (history_items ++ ["Assistant: " +:+ content])
        else history_loop rest history_items
      else history_loop rest history_items
  end.

Definition format_history (chat_history : option (list entry)) : string :=
  match chat_history with
  | Some (e :: l) =>
      let history_items := history_loop (last6 (e :: l)) [] in
      match history_items with
      | [] => no_previous
      | _ => join nl history_items
      end
  | Some [] | None => no_previous
  end.

Definition generate (st : GraphState) : M GraphState :=
  question ← getitem "question" (state.question st);
  documents ← getitem "documents" (state.documents st);
  let chat_history := default (Some []) (state.chat_history st) in
  let formatted_history := format_history chat_history in
  generation ← call generation_chain
    {| gen_context := documents; gen_question := question;
       gen_chat_history := formatted_history |};
  mret {| state.documents := Some documents;
          state.question := Some question;
          state.generation := Some generation;
          state.web_search := None;
          state.retriever := None; state.chat_history := None |}.

(** *** [nodes/web_search.py] *)

(** The loop [for tavily_result in tavily_results]; [documents] is
    [None] until the first result when the state had none. *)
Fixpoint web_search_loop (tavily_results : list TavilyResult)
    (documents : option (list Document)) : option (list Document) :=
  match tavily_results with
  | [] => documents
  | tavily_result :: rest =>
      let metadata : gmap string value :=
        {[ "source" := VStr (title tavily_result +:+ nl +:+ url tavily_result);
           "relevance_score" := VFloat (score tavily_result) ]} in
      let web_result :=
        {| page_content := content tavily_result; metadata := metadata |} in
      web_search_loop rest
        (match documents with
         | Some documents => Some (documents ++ [web_result])
         | None => Some [web_result]
         end)
  end.

Definition web_search (st : GraphState) : M GraphState :=
  question ← getitem "question" (state.question st);
  let documents := default None (state.documents st) in
  tavily_results ← call web_search_tool question;
  let documents := web_search_loop tavily_results documents in
  mret {| state.documents := Some documents;
          state.question := Some question;
          state.generation := None; state.web_search := None;
          state.retriever := None; state.chat_history := None |}.

(** ** [graph.py] *)

(** *** The two routers *)

Definition decide_to_generate (st : GraphState) : M label :=
  web_search ← getitem "web_search" (state.web_search st);
  if (web_search : bool) then mret (LNode WEBSEARCH) else mret (LNode GENERATE).

Definition grade_generation_grounded_in_documents_and_question
    (st : GraphState) : M label :=
  question ← getitem "question" (state.question st);
  documents ← getitem "documents" (state.documents st);
  generation ← getitem "generation" (state.generation st);
  hallucination_grade ← call hallucination_grader (documents, generation);
  if (hallucination_grade : bool) then
    answer_grade ← call answer_grader (question, generation);
    if (answer_grade : bool) then mret (LStr "useful") else mret (LStr "not useful")
  else mret (LStr "not supported").

(** *** The declared graph *)

Definition workflow : StateGraph :=
  let workflow := new_graph in
  let workflow := add_node RETRIEVE retrieve workflow in
  let workflow := add_node GRADE_DOCUMENTS grade_documents workflow in
  let workflow := add_node GENERATE generate workflow in
  let workflow := add_node WEBSEARCH web_search workflow in
  let workflow := set_entry_point RETRIEVE workflow in
  let workflow := add_edge RETRIEVE (To GRADE_DOCUMENTS) workflow in
  let workflow :=
    add_conditional_edges GRADE_DOCUMENTS decide_to_generate
      [ (LNode WEBSEARCH, To WEBSEARCH);
        (LNode GENERATE, To GENERATE) ] workflow in
  let workflow :=
    add_conditional_edges GENERATE
      grade_generation_grounded_in_documents_and_question
      [ (LStr "not supported", To GENERATE);
        (LStr "useful", END);
        (LStr "not useful", To WEBSEARCH) ] workflow in
  let workflow := add_edge WEBSEARCH (To GENERATE) workflow in
  let workflow := add_edge GENERATE END workflow in
  workflow.

(** [agent.invoke(input)] for [fuel] supersteps. *)
Definition agent (fuel : nat) (input : GraphState) : outcome :=
  match entry_point workflow with
  | Some n => run workflow fuel [n] input 0
  | None => Failed (KeyError "__start__")
  end.

(** ** Definitions used to state the properties *)

(** The answers of the relevance grader over one grading pass that
    starts at call [t]: document [i] is graded by call [t + i]. *)
Fixpoint grader_answers (t : nat) (question : string) (documents : list Document)
    : list (result (gmap string value)) :=
  match documents with
  | [] => []
  | d :: rest =>
      retrieval_grader t (grader_input question d)
        :: grader_answers (S t) question rest
  end.

(** What the loop does with one document and its dumped answer. *)
Definition graded (d : Document) (score : gmap string value) : option Document :=
  if truthy (dict_get score "relevance" (VStr "no")) then
    Some (set_metadata d "relevance_score"
            (dict_get score "relevance_score" (VFloat 0%Q)))
  else None.

(** Whether the loop sets [web_search] on this answer. *)
Definition rejected (score : gmap string value) : bool :=
  negb (truthy (dict_get score "relevance" (VStr "no"))).

(** The documents the grader marked relevant, in input order, each
    with the grader's score written into its metadata. *)
Definition relevant_documents (documents : list Document)
    (gs : list GradeDocuments) : list Document :=
  (λ dg, set_metadata dg.1 "relevance_score" (VFloat (relevance_score dg.2)))
    <$> filter (λ dg, relevance dg.2 = true) (zip documents gs).

(** The steps one router schedules through its path map. *)
Definition routed_by (path : GraphState → M label)
    (path_map : list (label * target)) (st : GraphState) : M (list Node) :=
  l ← path st;
  b ← match assoc l path_map with
      | Some b => mret b
      | None => raise (KeyError "path_map")
      end;
  more ← mret [];
  mret (scheduled b ++ more).

(** The decision of the post-generation router, and the step it
    schedules, as functions of the two grader booleans. *)
Definition decision (grounded addresses : bool) : string :=
  if grounded then if addresses then "useful" else "not useful"
  else "not supported".

Definition next_step (grounded addresses : bool) : list Node :=
  if grounded then if addresses then [] else [WEBSEARCH]
  else [GENERATE].

(** What [generate] hands to the generation chain. *)
Definition generation_input (st : GraphState) (q : string)
    (docs : option (list Document)) : GenerationInput :=
  {| gen_context := docs; gen_question := q;
     gen_chat_history :=
       format_history (default (Some []) (state.chat_history st)) |}.

(** The run state with its [generation] replaced. *)
Definition with_generation (st : GraphState) (g : string) : GraphState :=
  {| state.question := state.question st;
     state.generation := Some g;
     state.web_search := state.web_search st;
     state.documents := state.documents st;
     state.retriever := state.retriever st;
     state.chat_history := state.chat_history st |}.

(** The line an entry contributes: entries with role "user" or
    "assistant" and a non-empty content give a line, others none. *)
Definition rendered_line (e : entry) : option string :=
  match e with
  | EDict d =>
      match d !! "role", d !! "content" with
      | Some role, Some content =>
          if bool_decide (content = EmptyString) then None
          else if bool_decide (role = "user") then Some ("User: " +:+ content)
          else if bool_decide (role = "assistant")
               then Some ("Assistant: " +:+ content)
          else None
      | _, _ => None
      end
  | EOther => None
  end.

(** The history as the specification describes it: the lines of the
    last 6 entries, or the placeholder when there is none. *)
Definition rendered_history (chat_history : list entry) : string :=
  match omap rendered_line (last6 chat_history) with
  | [] => no_previous
  | items => join nl items
  end.

(** The entries of the state's history; none when the key is missing
    or holds [None]. *)
Definition history_entries (st : GraphState) : list entry :=
  match state.chat_history st with
  | Some (Some l) => l
  | _ => []
  end.


(** The dictionary [retrieve] returns. *)
Definition retrieved (q : string) (documents : list Document) : GraphState :=
  {| state.documents := Some (Some documents); state.question := Some q;
     state.generation := None; state.web_search := None;
     state.retriever := None; state.chat_history := None |}.

(** The document a search result is mapped to. *)
Definition to_document (r : TavilyResult) : Document :=
  {| page_content := content r;
     metadata := {[ "source" := VStr (title r +:+ nl +:+ url r);
                    "relevance_score" := VFloat (score r) ]} |}.

(** The documents of the state; none when the key is missing or holds
    [None]. *)
Definition prior_documents (st : GraphState) : list Document :=
  match state.documents st with
  | Some (Some documents) => documents
  | _ => []
  end.

(** A document that carries a [relevance_score]. *)
Definition scored (d : Document) : Prop :=
  is_Some (metadata d !! "relevance_score").

(** The state once grading is done: [documents] is a list of scored
    documents and the [web_search] flag is set. *)
Definition graded_state (st : GraphState) : Prop :=
  ∃ (docs : list Document) (w : bool),
    state.documents st = Some (Some docs)
    ∧ Forall scored docs
    ∧ state.web_search st = Some w.

(** The keys the caller supplies. *)
Definition same_caller_keys (st st' : GraphState) : Prop :=
  state.question st' = state.question st
  ∧ state.retriever st' = state.retriever st
  ∧ state.chat_history st' = state.chat_history st.

Lemma union_Some_l {A} (x : A) (o : option A) : Some x ∪ o = Some x.
Proof. by destruct o. Qed.

(** ** Properties of the grading step *)

Lemma length_grader_answers (t : nat) (question : string)
    (documents : list Document) :
  length (grader_answers t question documents) = length documents.
Proof.
  revert t. induction documents as [|d rest IH]; intros t; cbn; [done|].
  by rewrite IH.
Qed.

Lemma grade_loop_ok (question : string) (documents : list Document) :
  ∀ (scores : list (gmap string value)) (filtered_docs : list Document)
    (web_search : bool) (t : nat),
    grader_answers t question documents = Ok <$> scores →
    grade_loop question documents filtered_docs web_search t
    = Ok ((filtered_docs ++ omap (uncurry graded) (zip documents scores),
           web_search || existsb rejected scores),
          t + length documents).
Proof.
  induction documents as [|d rest IH]; intros scores filtered ws t Hans.
  - destruct scores; [|discriminate]. cbn.
    rewrite app_nil_r, orb_false_r, Nat.add_0_r. reflexivity.
  - destruct scores as [|score scores]; [discriminate|].
    cbn in Hans. injection Hans as Hhd Htl.
    assert (Hom : omap (uncurry graded) (zip (d :: rest) (score :: scores))
                  = match graded d score with
                    | Some d' => d' :: omap (uncurry graded) (zip rest scores)
                    | None => omap (uncurry graded) (zip rest scores)
                    end) by reflexivity.
    rewrite Hom. clear Hom.
    replace (t + length (d :: rest)) with (S t + length rest) by (cbn; lia).
    cbn [grade_loop existsb]. unfold mbind, M_bind, bind, call. rewrite Hhd.
    unfold graded, rejected.
    destruct (truthy (dict_get score "relevance" (VStr "no"))); cbn [negb].
    + rewrite (IH scores _ _ _ Htl). rewrite <- app_assoc. cbn [app].
      rewrite orb_false_l. reflexivity.
    + rewrite (IH scores _ _ _ Htl). rewrite orb_true_l, orb_true_r.
      reflexivity.
Qed.


(** On the dump of a validated answer the two lookups find the
    fields: the fallback values of [get] are not used. *)
Lemma model_dump_relevance (g : GradeDocuments) (dflt : value) :
  dict_get (model_dump g) "relevance" dflt = VBool (relevance g).
Proof. unfold dict_get, model_dump. by rewrite lookup_insert_eq. Qed.

Lemma model_dump_relevance_score (g : GradeDocuments) (dflt : value) :
  dict_get (model_dump g) "relevance_score" dflt = VFloat (relevance_score g).
Proof.
  unfold dict_get, model_dump.
  rewrite lookup_insert_ne by done. by rewrite lookup_singleton_eq.
Qed.

Lemma graded_validated (documents : list Document) :
  ∀ gs : list GradeDocuments,
    omap (uncurry graded) (zip documents (model_dump <$> gs))
    = relevant_documents documents gs.
Proof.
  unfold relevant_documents.
  induction documents as [|d rest IH]; intros [|g gs]; try reflexivity.
  cbn [fmap list_fmap zip zip_with].
  rewrite filter_cons. cbn [snd fst].
  change (omap (uncurry graded) ((d, model_dump g) :: zip rest (model_dump <$> gs)))
    with (match graded d (model_dump g) with
          | Some d' => d' :: omap (uncurry graded) (zip rest (model_dump <$> gs))
          | None => omap (uncurry graded) (zip rest (model_dump <$> gs))
          end).
  unfold graded. rewrite model_dump_relevance, model_dump_relevance_score.
  cbn [truthy]. rewrite IH.
  destruct (relevance g); case_decide; try done.
Qed.

Lemma rejected_validated (gs : list GradeDocuments) :
  existsb rejected (model_dump <$> gs) = existsb (λ g, negb (relevance g)) gs.
Proof.
  induction gs as [|g gs IH]; [reflexivity|].
  cbn [fmap list_fmap existsb]. rewrite <- IH.
  unfold rejected at 1. by rewrite model_dump_relevance.
Qed.

Lemma grade_documents_validated (st : GraphState) (t : nat) (q : string)
    (docs : list Document) (gs : list GradeDocuments) :
  state.question st = Some q →
  state.documents st = Some (Some docs) →
  grader_answers t q docs = Ok <$> (model_dump <$> gs) →
  grade_documents st t
  = Ok ({| state.documents := Some (Some (relevant_documents docs gs));
           state.question := Some q;
           state.web_search := Some (existsb (λ g, negb (relevance g)) gs);
           state.generation := None;
           state.retriever := None; state.chat_history := None |},
        t + length docs).
Proof.
  intros Hq Hd Hans. unfold grade_documents.
  rewrite Hq, Hd. unfold mbind, M_bind, bind, getitem, ret, mret, M_ret.
  rewrite (grade_loop_ok q docs _ [] false t Hans).
  rewrite graded_validated, rejected_validated. reflexivity.
Qed.

(** C3. For every document sequence handed to the grading step and
    every pass in which the grader answers with validated
    [GradeDocuments] values, the documents the step returns are
    exactly the input documents that the grader marked relevant, in
    their input order, each with the grader's [relevance_score]
    written into its metadata (content and other metadata untouched);
    a document marked irrelevant is at no position of the output. *)
Theorem grade_documents_keeps_relevant (st : GraphState) (t : nat) (q : string)
    (docs : list Document) (gs : list GradeDocuments) :
  state.question st = Some q →
  state.documents st = Some (Some docs) →
  grader_answers t q docs = Ok <$> (model_dump <$> gs) →
  ∃ upd : GraphState,
    grade_documents st t = Ok (upd, t + length docs)
    ∧ state.documents upd = Some (Some (relevant_documents docs gs))
    ∧ length (relevant_documents docs gs)
      = length (filter (λ g, relevance g = true) gs)
    ∧ Forall (λ d', ∃ (i : nat) (d : Document) (g : GradeDocuments),
                docs !! i = Some d ∧ gs !! i = Some g
                ∧ relevance g = true
                ∧ page_content d' = page_content d
                ∧ metadata d'
                  = <["relevance_score" := VFloat (relevance_score g)]> (metadata d))
             (relevant_documents docs gs).
Proof.
  intros Hq Hd Hans. eexists. split; [|split; [|split]].
  - by apply grade_documents_validated.
  - reflexivity.
  - assert (Hlen : length docs = length gs).
    { rewrite <- (length_grader_answers t q docs), Hans.
      by rewrite !length_fmap. }
    unfold relevant_documents. rewrite length_fmap.
    clear -Hlen. revert gs Hlen.
    induction docs as [|d rest IH]; intros [|g gs] Hlen; try done.
    cbn [zip zip_with]. rewrite !filter_cons. cbn [snd].
    injection Hlen as Hlen. specialize (IH gs Hlen).
    destruct (decide (relevance g = true)); cbn [length]; by rewrite IH.
  - unfold relevant_documents. apply Forall_fmap, Forall_forall.
    intros [d g] Hin. apply list_elem_of_In in Hin.
    apply list_elem_of_filter in Hin as [Hrel Hin].
    apply list_elem_of_lookup in Hin as [i Hi].
    apply lookup_zip_with_Some in Hi as (d0 & g0 & Heq & Hd0 & Hg0).
    injection Heq as -> ->. exists i, d0, g0. cbn in *. done.
Qed.

(** ** Properties of the declared graph *)

Lemma node_of_workflow (n : Node) :
  assoc n (nodes workflow)
  = Some match n with
         | RETRIEVE => retrieve
         | GRADE_DOCUMENTS => grade_documents
         | GENERATE => generate
         | WEBSEARCH => web_search
         end.
Proof. by destruct n. Qed.

(** The plain edges: the one from [GENERATE] leads to [END] and so
    schedules nothing. *)
Lemma edge_targets_workflow (n : Node) :
  edge_targets workflow n
  = match n with
    | RETRIEVE => [GRADE_DOCUMENTS]
    | WEBSEARCH => [GENERATE]
    | GRADE_DOCUMENTS | GENERATE => []
    end.
Proof. by destruct n. Qed.

Lemma branch_targets_workflow (n : Node) (st : GraphState) :
  branch_targets (branches workflow) n st
  = match n with
    | GRADE_DOCUMENTS =>
        routed_by decide_to_generate
          [ (LNode WEBSEARCH, To WEBSEARCH); (LNode GENERATE, To GENERATE) ] st
    | GENERATE =>
        routed_by grade_generation_grounded_in_documents_and_question
          [ (LStr "not supported", To GENERATE); (LStr "useful", END);
            (LStr "not useful", To WEBSEARCH) ] st
    | RETRIEVE | WEBSEARCH => mret []
    end.
Proof. by destruct n. Qed.

Lemma superstep_workflow (n : Node) (st : GraphState) (t : nat) :
  superstep workflow n st t
  = match match n with
          | RETRIEVE => retrieve
          | GRADE_DOCUMENTS => grade_documents
          | GENERATE => generate
          | WEBSEARCH => web_search
          end st t with
    | Ok (upd, t) =>
        match branch_targets (branches workflow) n (apply_update st upd) t with
        | Ok (routed, t) =>
            Ok ((apply_update st upd,
                 remove_dups (edge_targets workflow n ++ routed)), t)
        | Raise e => Raise e
        end
    | Raise e => Raise e
    end.
Proof.
  unfold superstep. rewrite node_of_workflow.
  unfold mbind, M_bind, bind, mret, M_ret, ret.
  destruct (_ st t) as [[upd t']|e]; [|done].
  by destruct (branch_targets _ _ _ _) as [[routed t'']|e].
Qed.

Lemma decide_to_generate_spec (st : GraphState) (t : nat) (w : bool) :
  state.web_search st = Some w →
  decide_to_generate st t = Ok (LNode (if w then WEBSEARCH else GENERATE), t).
Proof. intros Hw. unfold decide_to_generate. rewrite Hw. by destruct w. Qed.

Lemma route_after_grading (st : GraphState) (t : nat) (w : bool) :
  state.web_search st = Some w →
  branch_targets (branches workflow) GRADE_DOCUMENTS st t
  = Ok ([if w then WEBSEARCH else GENERATE], t).
Proof.
  intros Hw. rewrite branch_targets_workflow. unfold routed_by.
  unfold mbind, M_bind, bind. rewrite (decide_to_generate_spec st t w Hw).
  by destruct w.
Qed.

Lemma grade_generation_spec (st : GraphState) (t : nat) (q gen : string)
    (docs : option (list Document)) (h a : bool) :
  state.question st = Some q →
  state.documents st = Some docs →
  state.generation st = Some gen →
  hallucination_grader t (docs, gen) = Ok h →
  (h = true → answer_grader (S t) (q, gen) = Ok a) →
  grade_generation_grounded_in_documents_and_question st t
  = Ok (LStr (decision h a), if h then S (S t) else S t).
Proof.
  intros Hq Hd Hg Hh Ha. unfold grade_generation_grounded_in_documents_and_question.
  rewrite Hq, Hd, Hg. unfold mbind, M_bind, bind, getitem, ret, call.
  rewrite Hh. destruct h; [|done]. rewrite (Ha eq_refl). by destruct a.
Qed.

Lemma route_after_generation (st : GraphState) (t : nat) (q gen : string)
    (docs : option (list Document)) (h a : bool) :
  state.question st = Some q →
  state.documents st = Some docs →
  state.generation st = Some gen →
  hallucination_grader t (docs, gen) = Ok h →
  (h = true → answer_grader (S t) (q, gen) = Ok a) →
  branch_targets (branches workflow) GENERATE st t
  = Ok (next_step h a, if h then S (S t) else S t).
Proof.
  intros Hq Hd Hg Hh Ha. rewrite branch_targets_workflow. unfold routed_by.
  unfold mbind, M_bind, bind.
  rewrite (grade_generation_spec st t q gen docs h a Hq Hd Hg Hh Ha).
  by destruct h, a.
Qed.

(** ** The generation step inside the graph *)

Lemma generate_spec (st : GraphState) (t : nat) (q : string)
    (docs : option (list Document)) :
  state.question st = Some q →
  state.documents st = Some docs →
  generate st t
  = match generation_chain t (generation_input st q docs) with
    | Ok g =>
        Ok ({| state.documents := Some docs; state.question := Some q;
               state.generation := Some g; state.web_search := None;
               state.retriever := None; state.chat_history := None |}, S t)
    | Raise e => Raise e
    end.
Proof.
  intros Hq Hd. unfold generate. rewrite Hq, Hd.
  unfold mbind, M_bind, bind, getitem, ret, call, generation_input.
  by destruct (generation_chain t _).
Qed.

Lemma generate_update (st : GraphState) (q g : string)
    (docs : option (list Document)) :
  state.question st = Some q →
  state.documents st = Some docs →
  apply_update st
    {| state.documents := Some docs; state.question := Some q;
       state.generation := Some g; state.web_search := None;
       state.retriever := None; state.chat_history := None |}
  = with_generation st g.
Proof.
  destruct st as [q0 g0 w0 d0 r0 c0]. cbn. intros -> ->.
  unfold apply_update, with_generation. cbn.
  by destruct g0, w0, r0, c0.
Qed.

Lemma superstep_generate (st : GraphState) (t : nat) (q g : string)
    (docs : option (list Document)) (h a : bool) :
  state.question st = Some q →
  state.documents st = Some docs →
  generation_chain t (generation_input st q docs) = Ok g →
  hallucination_grader (S t) (docs, g) = Ok h →
  (h = true → answer_grader (S (S t)) (q, g) = Ok a) →
  superstep workflow GENERATE st t
  = Ok ((with_generation st g, next_step h a),
        if h then S (S (S t)) else S (S t)).
Proof.
  intros Hq Hd Hgen Hh Ha. rewrite superstep_workflow.
  rewrite (generate_spec st t q docs Hq Hd), Hgen.
  rewrite (generate_update st q g docs Hq Hd).
  rewrite (route_after_generation (with_generation st g) (S t) q g docs h a);
    try done.
  rewrite edge_targets_workflow. by destruct h, a.
Qed.

Lemma remove_dups_nil_inv (l : list Node) : remove_dups l = [] → l = [].
Proof.
  destruct l as [|n l]; [done|]. intros Hnil.
  assert (Hin : n ∈ remove_dups (n :: l)) by (apply elem_of_remove_dups; left).
  rewrite Hnil in Hin. by apply elem_of_nil in Hin.
Qed.

(** No step is scheduled only after [GENERATE], and only when the
    router answered "useful". *)
Lemma end_only_after_useful (n : Node) (st st' : GraphState) (t t' : nat) :
  superstep workflow n st t = Ok ((st', []), t') →
  n = GENERATE
  ∧ ∃ t1, grade_generation_grounded_in_documents_and_question st' t1
          = Ok (LStr "useful", t').
Proof.
  rewrite superstep_workflow, edge_targets_workflow.
  destruct (_ st t) as [[upd t1]|e]; [|done].
  rewrite branch_targets_workflow.
  destruct n; cbn [app]; unfold mret, M_ret, ret; try done.
  - unfold routed_by, mbind, M_bind, bind, decide_to_generate, getitem.
    destruct (state.web_search (apply_update st upd)) as [[|]|]; done.
  - unfold routed_by, mbind, M_bind, bind.
    destruct (grade_generation_grounded_in_documents_and_question _ t1)
      as [[l t2]|e] eqn:Hroute; [|done].
    unfold mret, M_ret, ret, raise. cbn [assoc].
    destruct (decide (l = LStr "not supported")); [done|].
    destruct (decide (l = LStr "useful")) as [->|]; [|].
    + cbn. intros [= <- <-]. split; [done|]. by exists t1.
    + destruct (decide (l = LStr "not useful")); done.
Qed.


(** C1. For every run state in which [GENERATE] runs and produces an
    answer, the post-generation router, called on the state that
    results, returns one of three decisions as a function of the two
    grader booleans, and the graph follows it: not grounded gives
    "not supported" and the next step is [GENERATE] again, on the same
    documents and question, with no retrieval or grading step in
    between; grounded but not addressing the question gives
    "not useful" and the next step is [WEBSEARCH]; grounded and
    addressing gives "useful" and the run ends.  A superstep after
    which the run ends is always a [GENERATE] step whose router
    answered "useful". *)
Theorem post_generation_routing (st : GraphState) (t : nat) (q g : string)
    (docs : option (list Document)) (h a : bool) :
  state.question st = Some q →
  state.documents st = Some docs →
  generation_chain t (generation_input st q docs) = Ok g →
  hallucination_grader (S t) (docs, g) = Ok h →
  (h = true → answer_grader (S (S t)) (q, g) = Ok a) →
  ∃ (st' : GraphState) (t' : nat),
    superstep workflow GENERATE st t = Ok ((st', next_step h a), t')
    ∧ grade_generation_grounded_in_documents_and_question st' (S t)
      = Ok (LStr (decision h a), t')
    ∧ state.generation st' = Some g
    ∧ state.documents st' = state.documents st
    ∧ state.question st' = state.question st
    ∧ (∀ fuel, run workflow (S fuel) [GENERATE] st t
               = run workflow fuel (next_step h a) st' t')
    ∧ (h = false → decision h a = "not supported" ∧ next_step h a = [GENERATE])
    ∧ (h = true → a = false →
       decision h a = "not useful" ∧ next_step h a = [WEBSEARCH])
    ∧ (h = true → a = true →
       decision h a = "useful"
       ∧ ∀ fuel, run workflow (S fuel) [GENERATE] st t = Finished st')
    ∧ (∀ (n : Node) (s s' : GraphState) (u u' : nat),
         superstep workflow n s u = Ok ((s', []), u') →
         n = GENERATE
         ∧ ∃ u1, grade_generation_grounded_in_documents_and_question s' u1
                 = Ok (LStr "useful", u')).
Proof.
  intros Hq Hd Hgen Hh Ha.
  pose proof (superstep_generate st t q g docs h a Hq Hd Hgen Hh Ha) as Hstep.
  exists (with_generation st g), (if h then S (S (S t)) else S (S t)).
  split; [exact Hstep|]. split.
  { by apply (grade_generation_spec _ _ q g docs). }
  split; [done|]. split; [done|]. split; [done|]. split.
  { intros fuel. cbn [run]. by rewrite Hstep. }
  split; [by intros ->|]. split; [by intros -> ->|]. split.
  { intros -> ->. split; [done|]. intros fuel. cbn [run]. rewrite Hstep.
    by destruct fuel. }
  intros n s s' u u'. apply end_only_after_useful.
Qed.

(** ** The other supersteps *)

Lemma superstep_retrieve (st upd : GraphState) (t t' : nat) :
  retrieve st t = Ok (upd, t') →
  superstep workflow RETRIEVE st t
  = Ok ((apply_update st upd, [GRADE_DOCUMENTS]), t').
Proof. intros H. rewrite superstep_workflow, H. done. Qed.

Lemma superstep_web_search (st upd : GraphState) (t t' : nat) :
  web_search st t = Ok (upd, t') →
  superstep workflow WEBSEARCH st t
  = Ok ((apply_update st upd, [GENERATE]), t').
Proof. intros H. rewrite superstep_workflow, H. done. Qed.

Lemma superstep_grade_documents (st upd : GraphState) (t t' : nat) (w : bool) :
  grade_documents st t = Ok (upd, t') →
  state.web_search upd = Some w →
  superstep workflow GRADE_DOCUMENTS st t
  = Ok ((apply_update st upd, [if w then WEBSEARCH else GENERATE]), t').
Proof.
  intros H Hw. rewrite superstep_workflow, H.
  rewrite (route_after_grading _ _ w); [by destruct w|].
  cbn. rewrite Hw. by destruct (state.web_search st).
Qed.

(** C4. For every document sequence handed to the grading step and
    every pass in which the grader answers with validated values, the
    step sets [web_search] to true exactly when at least one examined
    document was graded irrelevant; and on every state the
    post-grading router returns [WEBSEARCH] exactly when [web_search]
    is true and [GENERATE] otherwise, which is the step the graph runs
    next. *)
Theorem web_search_flag_routes (st : GraphState) (t : nat) (q : string)
    (docs : list Document) (gs : list GradeDocuments) :
  state.question st = Some q →
  state.documents st = Some (Some docs) →
  grader_answers t q docs = Ok <$> (model_dump <$> gs) →
  ∃ (upd : GraphState) (w : bool),
    grade_documents st t = Ok (upd, t + length docs)
    ∧ state.web_search upd = Some w
    ∧ (w = true ↔ ∃ (i : nat) (d : Document) (g : GradeDocuments),
                    docs !! i = Some d ∧ gs !! i = Some g ∧ relevance g = false)
    ∧ (∀ (s : GraphState) (u : nat) (b : bool),
         state.web_search s = Some b →
         decide_to_generate s u
         = Ok (LNode (if b then WEBSEARCH else GENERATE), u))
    ∧ superstep workflow GRADE_DOCUMENTS st t
      = Ok ((apply_update st upd, [if w then WEBSEARCH else GENERATE]),
            t + length docs).
Proof.
  intros Hq Hd Hans.
  pose proof (grade_documents_validated st t q docs gs Hq Hd Hans) as Hgrade.
  eexists _, _. split; [exact Hgrade|]. split; [reflexivity|]. split; [|split].
  - assert (Hlen : length docs = length gs).
    { rewrite <- (length_grader_answers t q docs), Hans.
      by rewrite !length_fmap. }
    rewrite existsb_exists. split.
    + intros (g & Hin & Hrel). apply list_elem_of_In in Hin.
      apply list_elem_of_lookup in Hin as [i Hi].
      destruct (lookup_lt_is_Some_2 docs i) as [d Hdi].
      { rewrite Hlen. by eapply lookup_lt_Some. }
      exists i, d, g. by destruct (relevance g).
    + intros (i & d & g & _ & Hg & Hrel). exists g. split.
      * apply list_elem_of_In, list_elem_of_lookup. by exists i.
      * by rewrite Hrel.
  - intros s u b. apply decide_to_generate_spec.
  - by apply superstep_grade_documents.
Qed.

(** ** Failing and incomplete grader answers *)




(** ** The rendered chat history *)

Lemma history_loop_spec (entries : list entry) :
  ∀ items : list string,
    history_loop entries items = items ++ omap rendered_line entries.
Proof.
  induction entries as [|e rest IH]; intros items.
  - cbn. by rewrite app_nil_r.
  - change (omap rendered_line (e :: rest))
      with (match rendered_line e with
            | Some line => line :: omap rendered_line rest
            | None => omap rendered_line rest
            end).
    destruct e as [d|]; cbn [history_loop rendered_line]; [|apply IH].
    destruct (d !! "role") as [role|], (d !! "content") as [content|];
      cbn [default];
      repeat case_bool_decide; subst; cbn [negb andb]; try done;
      rewrite ?IH, <- ?app_assoc; done.
Qed.

Lemma format_history_spec (st : GraphState) :
  format_history (default (Some []) (state.chat_history st))
  = rendered_history (history_entries st).
Proof.
  unfold history_entries, rendered_history.
  destruct (state.chat_history st) as [[[|e l]|]|]; try done.
  change (default (Some []) (Some (Some (e :: l)))) with (Some (e :: l)).
  cbn [format_history]. rewrite history_loop_spec. cbn [app].
  by destruct (omap rendered_line (last6 (e :: l))).
Qed.



(** ** Properties of the retrieval step *)



(** ** Properties of the web-search step *)

Lemma web_search_loop_some (results : list TavilyResult) :
  ∀ documents : list Document,
    web_search_loop results (Some documents)
    = Some (documents ++ (to_document <$> results)).
Proof.
  induction results as [|r rest IH]; intros documents.
  - cbn. by rewrite app_nil_r.
  - cbn [web_search_loop]. rewrite IH, <- app_assoc. done.
Qed.

Lemma web_search_loop_none (results : list TavilyResult) :
  web_search_loop results None
  = match results with
    | [] => None
    | _ => Some (to_document <$> results)
    end.
Proof.
  destruct results as [|r rest]; [done|].
  cbn [web_search_loop]. by rewrite web_search_loop_some.
Qed.

Lemma web_search_spec (st : GraphState) (t : nat) (q : string) :
  state.question st = Some q →
  web_search st t
  = match web_search_tool t q with
    | Ok results =>
        Ok ({| state.documents :=
                 Some (web_search_loop results
                         (default None (state.documents st)));
               state.question := Some q;
               state.generation := None; state.web_search := None;
               state.retriever := None; state.chat_history := None |}, S t)
    | Raise e => Raise e
    end.
Proof.
  intros Hq. unfold web_search. rewrite Hq.
  unfold mbind, M_bind, bind, getitem, ret, call.
  by destruct (web_search_tool t q).
Qed.

(** C5 (amended). For every prior document sequence D, possibly
    empty, and every list of provider results, and also for D missing
    or [None] when the provider returns at least one result (D then
    counting as empty), the web-search step returns D, unchanged and
    in order, followed by one document per result in provider order,
    whose content is the result's body, whose [source] is the title, a
    newline and the URL, and whose [relevance_score] is the
    provider's score; no document of D is removed. *)
Theorem web_search_appends (st : GraphState) (t : nat) (q : string)
    (results : list TavilyResult) :
  state.question st = Some q →
  web_search_tool t q = Ok results →
  (∃ documents, state.documents st = Some (Some documents)) ∨ results ≠ [] →
  ∃ upd : GraphState,
    web_search st t = Ok (upd, S t)
    ∧ state.question upd = Some q
    ∧ state.documents upd
      = Some (Some (prior_documents st ++ (to_document <$> results)))
    ∧ Forall (λ r, page_content (to_document r) = content r
                   ∧ metadata (to_document r) !! "source"
                     = Some (VStr (title r +:+ nl +:+ url r))
                   ∧ metadata (to_document r) !! "relevance_score"
                     = Some (VFloat (score r))) results.
Proof.
  intros Hq Htool Hsome. rewrite (web_search_spec st t q Hq), Htool.
  eexists. split; [reflexivity|]. split; [reflexivity|]. split.
  - cbn. unfold prior_documents.
    destruct (state.documents st) as [[documents|]|];
      cbn [default from_option id].
    + by rewrite web_search_loop_some.
    + rewrite web_search_loop_none.
      destruct results; [|done]. by destruct Hsome as [[? ?]|?].
    + rewrite web_search_loop_none.
      destruct results; [|done]. by destruct Hsome as [[? ?]|?].
  - apply Forall_forall. intros r _. split; [done|]. split.
    + cbn. by rewrite lookup_insert_eq.
    + cbn. rewrite lookup_insert_ne by done. by rewrite lookup_singleton_eq.
Qed.

(** C10. When the web-search step runs on a state whose [documents]
    are missing or [None] and the provider returns no result, the
    step returns [documents] equal to [None], not an empty sequence:
    the run state then holds [None], the next step is [GENERATE], and
    the generation step hands [None] to the generator as its
    context. *)
Theorem web_search_returns_none (st : GraphState) (t : nat) (q : string) :
  state.question st = Some q →
  state.documents st = None ∨ state.documents st = Some None →
  web_search_tool t q = Ok [] →
  ∃ upd : GraphState,
    web_search st t = Ok (upd, S t)
    ∧ state.documents upd = Some None
    ∧ state.documents (apply_update st upd) = Some None
    ∧ superstep workflow WEBSEARCH st t
      = Ok ((apply_update st upd, [GENERATE]), S t)
    ∧ ∀ u : nat,
        generate (apply_update st upd) u
        = match generation_chain u
                  {| gen_context := None; gen_question := q;
                     gen_chat_history :=
                       rendered_history (history_entries st) |} with
          | Ok g =>
              Ok ({| state.documents := Some None; state.question := Some q;
                     state.generation := Some g; state.web_search := None;
                     state.retriever := None;
                     state.chat_history := None |}, S u)
          | Raise e => Raise e
          end.
Proof.
  intros Hq Hnone Htool.
  pose proof (web_search_spec st t q Hq) as Hws. rewrite Htool in Hws.
  assert (Hdocs : web_search_loop [] (default None (state.documents st)) = None).
  { by destruct Hnone as [-> | ->]. }
  rewrite Hdocs in Hws.
  eexists. split; [exact Hws|]. split; [done|]. split.
  { cbn. by destruct (state.documents st). }
  split.
  { by apply superstep_web_search. }
  intros u. rewrite (generate_spec _ u q None).
  2:{ cbn. by destruct (state.question st). }
  2:{ cbn. by destruct (state.documents st). }
  unfold generation_input. rewrite format_history_spec.
  replace (history_entries (apply_update st _)) with (history_entries st); [done|].
  unfold history_entries. cbn. by destruct (state.chat_history st).
Qed.

(** ** The question through the steps *)

Lemma retrieve_question (st upd : GraphState) (t t' : nat) :
  retrieve st t = Ok (upd, t') → state.question upd = state.question st.
Proof.
  unfold retrieve, mbind, M_bind, mret, M_ret.
  unfold bind, getitem, ret, raise, call.
  intros H. repeat case_match; simplify_eq; cbn; congruence.
Qed.

Lemma grade_documents_question (st upd : GraphState) (t t' : nat) :
  grade_documents st t = Ok (upd, t') → state.question upd = state.question st.
Proof.
  unfold grade_documents, mbind, M_bind, mret, M_ret.
  unfold bind, getitem, ret, raise.
  intros H. repeat case_match; simplify_eq; cbn; congruence.
Qed.

Lemma generate_question (st upd : GraphState) (t t' : nat) :
  generate st t = Ok (upd, t') →
  state.question upd = state.question st
  ∧ state.documents upd = state.documents st
  ∧ ∃ g, state.generation upd = Some g
         ∧ apply_update st upd = with_generation st g.
Proof.
  destruct (state.question st) as [q|] eqn:Hq;
    [|by unfold generate, mbind, M_bind, bind, getitem, raise; rewrite Hq].
  destruct (state.documents st) as [docs|] eqn:Hd;
    [|by unfold generate, mbind, M_bind, bind, getitem, raise, ret;
         rewrite Hq, Hd].
  rewrite (generate_spec st t q docs Hq Hd).
  destruct (generation_chain t _) as [g|e]; [|done].
  intros [= <- <-]. split; [done|]. split; [done|]. exists g.
  split; [done|]. by apply generate_update.
Qed.

Lemma web_search_question (st upd : GraphState) (t t' : nat) :
  web_search st t = Ok (upd, t') → state.question upd = state.question st.
Proof.
  unfold web_search, mbind, M_bind, mret, M_ret.
  unfold bind, getitem, ret, raise, call.
  intros H. repeat case_match; simplify_eq; cbn; congruence.
Qed.

(** C9. Every step of the graph returns the question it was given:
    when a step returns, the question of the returned dictionary, and
    so of the run state after the step, is the question of the state
    before it.  The generation step also returns the documents it was
    given, and the only key of the run state it changes is
    [generation]. *)
Theorem steps_keep_question (n : Node) (action : GraphState → M GraphState)
    (st upd : GraphState) (t t' : nat) :
  assoc n (nodes workflow) = Some action →
  action st t = Ok (upd, t') →
  state.question upd = state.question st
  ∧ state.question (apply_update st upd) = state.question st
  ∧ (n = GENERATE →
     state.documents upd = state.documents st
     ∧ state.documents (apply_update st upd) = state.documents st
     ∧ ∃ g, state.generation upd = Some g
            ∧ apply_update st upd = with_generation st g).
Proof.
  rewrite node_of_workflow. intros [= <-] Hrun.
  assert (Hq : state.question upd = state.question st).
  { destruct n.
    - by eapply retrieve_question.
    - by eapply grade_documents_question.
    - by eapply generate_question.
    - by eapply web_search_question. }
  split; [done|]. split.
  { cbn. rewrite Hq. by destruct (state.question st). }
  intros ->. apply generate_question in Hrun as (_ & Hd & g & Hg & Hupd).
  split; [done|]. split.
  { cbn. rewrite Hd. by destruct (state.documents st). }
  by exists g.
Qed.

(** ** Runs that never end *)

Section never_grounded.

(** No component call raises, and the hallucination grader reports
    "not grounded" at every call. *)
Hypothesis grader_answers_always :
  ∀ t i, ∃ score, retrieval_grader t i = Ok score.
Hypothesis generator_answers_always :
  ∀ t i, ∃ g, generation_chain t i = Ok g.
Hypothesis search_answers_always :
  ∀ t q, ∃ results, web_search_tool t q = Ok results.
Hypothesis never_grounded :
  ∀ t i, hallucination_grader t i = Ok false.







End never_grounded.

(** ** Further properties of the graph *)

Lemma superstep_inv (n : Node) (st st' : GraphState) (next : list Node)
    (t t' : nat) :
  superstep workflow n st t = Ok ((st', next), t') →
  ∃ (upd : GraphState) (t1 : nat) (routed : list Node),
    match n with
    | RETRIEVE => retrieve
    | GRADE_DOCUMENTS => grade_documents
    | GENERATE => generate
    | WEBSEARCH => web_search
    end st t = Ok (upd, t1)
    ∧ st' = apply_update st upd
    ∧ branch_targets (branches workflow) n st' t1 = Ok (routed, t')
    ∧ next = remove_dups (edge_targets workflow n ++ routed).
Proof.
  rewrite superstep_workflow.
  destruct (_ st t) as [[upd t1]|e]; [|done].
  destruct (branch_targets _ _ _ _) as [[routed t2]|e] eqn:Hroute; [|done].
  intros [= <- <- <-]. by exists upd, t1, routed.
Qed.

(** X1. Whatever the state and the components answer, a step of the
    graph schedules at most one step, and only along the declared
    edges: [RETRIEVE] is followed by [GRADE_DOCUMENTS], grading by
    [WEBSEARCH] or [GENERATE], web search by [GENERATE], generation by
    nothing, [GENERATE] or [WEBSEARCH].  So no step ever leads back to
    [RETRIEVE], and [GRADE_DOCUMENTS] runs only right after [RETRIEVE]:
    documents added by web search are never graded. *)
Theorem superstep_follows_edges (n : Node) (st st' : GraphState)
    (next : list Node) (t t' : nat) :
  superstep workflow n st t = Ok ((st', next), t') →
  match n with
  | RETRIEVE => next = [GRADE_DOCUMENTS]
  | GRADE_DOCUMENTS => next = [WEBSEARCH] ∨ next = [GENERATE]
  | WEBSEARCH => next = [GENERATE]
  | GENERATE => next = [] ∨ next = [GENERATE] ∨ next = [WEBSEARCH]
  end
  ∧ (length next ≤ 1)%nat
  ∧ (RETRIEVE ∉ next)
  ∧ (GRADE_DOCUMENTS ∈ next → n = RETRIEVE).
Proof.
  intros Hstep.
  apply superstep_inv in Hstep as (upd & t1 & routed & _ & _ & Hroute & ->).
  rewrite branch_targets_workflow in Hroute.
  rewrite edge_targets_workflow.
  assert (Htable :
    match n with
    | RETRIEVE => routed = []
    | GRADE_DOCUMENTS => routed = [WEBSEARCH] ∨ routed = [GENERATE]
    | WEBSEARCH => routed = []
    | GENERATE => routed = [] ∨ routed = [GENERATE] ∨ routed = [WEBSEARCH]
    end).
  { destruct n.
    - by injection Hroute as <- _.
    - unfold routed_by, mbind, M_bind, bind, decide_to_generate, getitem
        in Hroute.
      destruct (state.web_search _) as [[|]|]; vm_compute in Hroute;
        simplify_eq; auto.
    - unfold routed_by, mbind, M_bind, bind in Hroute.
      destruct (grade_generation_grounded_in_documents_and_question _ _)
        as [[l t3]|e]; [|done].
      unfold mret, M_ret, ret, raise in Hroute. cbn [assoc] in Hroute.
      repeat case_decide; cbn in Hroute; simplify_eq; auto.
    - by injection Hroute as <- _. }
  destruct n; cbn [app];
    repeat match goal with H : _ ∨ _ |- _ => destruct H end;
    subst routed;
    match goal with
    | |- context [remove_dups ?l] =>
        let v := eval vm_compute in (remove_dups l) in
        change (remove_dups l) with v
    end;
    cbn [length];
    (split; [auto|]); (split; [lia|]);
    (split; intros Hin; try done);
    repeat (apply elem_of_cons in Hin as [Hin|Hin]; [done|]);
    by apply elem_of_nil in Hin.
Qed.

Lemma step_keeps_caller_keys (n : Node) (st upd : GraphState) (t t1 : nat) :
  match n with
  | RETRIEVE => retrieve
  | GRADE_DOCUMENTS => grade_documents
  | GENERATE => generate
  | WEBSEARCH => web_search
  end st t = Ok (upd, t1) →
  same_caller_keys st (apply_update st upd).
Proof.
  intros Hrun.
  assert (Hshape : state.question upd = state.question st
                   ∧ state.retriever upd = None
                   ∧ state.chat_history upd = None).
  { destruct n; revert Hrun;
      unfold retrieve, grade_documents, generate, web_search,
        mbind, M_bind, mret, M_ret;
      unfold bind, getitem, ret, raise, call;
      intros H; repeat case_match; simplify_eq; cbn; repeat split; congruence. }
  destruct Hshape as (Hq & Hr & Hc). unfold same_caller_keys. cbn.
  rewrite Hq, Hr, Hc.
  by destruct (state.question st), (state.retriever st),
    (state.chat_history st).
Qed.

Lemma run_same_caller_keys (fuel : nat) :
  ∀ (active : list Node) (st : GraphState) (t : nat),
    match run workflow fuel active st t with
    | Finished st' | Running _ st' _ => same_caller_keys st st'
    | Failed _ => True
    end.
Proof.
  induction fuel as [|fuel IH]; intros [|n [|m rest]] st t; cbn [run];
    try done.
  destruct (superstep workflow n st t) as [[[st1 next] t1]|e] eqn:Hstep;
    [|done].
  apply superstep_inv in Hstep as (upd & t0 & routed & Hnode & -> & _).
  apply step_keeps_caller_keys in Hnode as (Hq & Hr & Hc).
  specialize (IH next (apply_update st upd) t1).
  destruct (run workflow fuel next _ t1); try done;
    destruct IH as (Hq' & Hr' & Hc'); repeat split; congruence.
Qed.

(** X2. Through a whole run the graph leaves the three keys the
    caller supplies as they were: at the end of a run, and at every
    point of a run that is still going on, [question], [retriever] and
    [chat_history] are those of the input.  (The graph does not append
    the new turn to the history.) *)
Theorem run_keeps_caller_keys (fuel : nat) (input : GraphState) :
  match agent fuel input with
  | Finished st | Running _ st _ =>
      state.question st = state.question input
      ∧ state.retriever st = state.retriever input
      ∧ state.chat_history st = state.chat_history input
  | Failed _ => True
  end.
Proof.
  unfold agent. cbn [entry_point workflow set_entry_point add_edge
    add_conditional_edges add_node new_graph].
  apply run_same_caller_keys.
Qed.

Lemma grade_loop_scored (q : string) (documents : list Document) :
  ∀ (filtered_docs kept : list Document) (w w' : bool) (t t' : nat),
    grade_loop q documents filtered_docs w t = Ok ((kept, w'), t') →
    Forall scored filtered_docs → Forall scored kept.
Proof.
  induction documents as [|d rest IH]; intros filtered kept w w' t t'.
  - cbn. by intros [= <- _ _].
  - cbn [grade_loop]. unfold mbind, M_bind, bind, call.
    destruct (retrieval_grader t _) as [score|e]; [|done].
    destruct (truthy _); intros Hloop Hall; eapply IH; try exact Hloop; [|done].
    apply Forall_app. split; [done|]. apply Forall_singleton.
    unfold scored. cbn. rewrite lookup_insert_eq. by eexists.
Qed.

Lemma grade_documents_graded_state (st upd : GraphState) (t t1 : nat) :
  grade_documents st t = Ok (upd, t1) → graded_state (apply_update st upd).
Proof.
  unfold grade_documents, mbind, M_bind, mret, M_ret.
  unfold bind, getitem, ret, raise.
  destruct (state.question st) as [q|]; [|done].
  destruct (state.documents st) as [[docs|]|]; try done.
  destruct (grade_loop q docs [] false t) as [[[kept w] t2]|e] eqn:Hloop;
    [|done].
  intros [= <- <-]. exists kept, w.
  split; [apply union_Some_l|]. split.
  - by eapply grade_loop_scored.
  - apply union_Some_l.
Qed.

Lemma to_document_scored (r : TavilyResult) : scored (to_document r).
Proof.
  unfold scored. cbn. rewrite lookup_insert_ne by done.
  rewrite lookup_singleton_eq. by eexists.
Qed.

Lemma web_search_graded_state (st upd : GraphState) (t t1 : nat) :
  graded_state st →
  web_search st t = Ok (upd, t1) → graded_state (apply_update st upd).
Proof.
  intros (docs & w & Hd & Hall & Hw).
  destruct (state.question st) as [q|] eqn:Hq;
    [|by unfold web_search, mbind, M_bind, bind, getitem, raise; rewrite Hq].
  rewrite (web_search_spec st t q Hq).
  destruct (web_search_tool t q) as [results|e]; [|done].
  intros [= <- <-]. exists (docs ++ (to_document <$> results)), w. cbn.
  rewrite Hd, Hw. cbn. rewrite web_search_loop_some. split; [done|].
  split; [|done]. apply Forall_app. split; [done|].
  apply Forall_fmap, Forall_forall. intros r _. apply to_document_scored.
Qed.

Lemma generate_graded_state (st upd : GraphState) (t t1 : nat) :
  graded_state st →
  generate st t = Ok (upd, t1) →
  graded_state (apply_update st upd)
  ∧ is_Some (state.generation (apply_update st upd)).
Proof.
  intros (docs & w & Hd & Hall & Hw) Hrun.
  apply generate_question in Hrun as (_ & _ & g & _ & ->).
  split; [by exists docs, w|]. by exists g.
Qed.

Lemma run_graded (fuel : nat) :
  ∀ (active : list Node) (st st' : GraphState) (t : nat),
    active = [GENERATE] ∨ active = [WEBSEARCH] →
    graded_state st →
    run workflow fuel active st t = Finished st' →
    graded_state st' ∧ is_Some (state.generation st').
Proof.
  induction fuel as [|fuel IH]; intros active st st' t Hactive Hst;
    [by destruct Hactive as [-> | ->]|].
  assert (∃ n, active = [n] ∧ (n = GENERATE ∨ n = WEBSEARCH)) as (n & -> & Hn)
    by (destruct Hactive as [-> | ->]; eauto).
  cbn [run].
  destruct (superstep workflow n st t) as [[[st1 next] t1]|e] eqn:Hstep;
    [|done].
  pose proof (superstep_follows_edges _ _ _ _ _ _ Hstep) as (Htable & _).
  apply superstep_inv in Hstep as (upd & t0 & routed & Hnode & -> & _).
  destruct Hn as [-> | ->].
  - destruct (generate_graded_state _ _ _ _ Hst Hnode) as (Hst1 & Hgen).
    destruct Htable as [-> | [-> | ->]].
    + destruct fuel; by intros [= <-].
    + apply IH; auto.
    + apply IH; auto.
  - pose proof (web_search_graded_state _ _ _ _ Hst Hnode) as Hst1.
    subst next. apply IH; auto.
Qed.

(** X3. The state a run ends with always has an answer and scored
    evidence: whenever [agent.invoke] returns, the result has a
    [generation], its [documents] are a list (never [None] or missing)
    in which every document carries a [relevance_score], and the
    [web_search] flag is set. *)
Theorem finished_run_has_answer (fuel : nat) (input st : GraphState) :
  agent fuel input = Finished st →
  (∃ g, state.generation st = Some g)
  ∧ ∃ (docs : list Document) (w : bool),
      state.documents st = Some (Some docs)
      ∧ Forall (λ d, is_Some (metadata d !! "relevance_score")) docs
      ∧ state.web_search st = Some w.
Proof.
  unfold agent. cbn [entry_point workflow set_entry_point add_edge
    add_conditional_edges add_node new_graph].
  destruct fuel as [|fuel]; [done|]. cbn [run].
  destruct (superstep workflow RETRIEVE input 0) as [[[st1 next] t1]|e]
    eqn:Hstep1; [|done].
  pose proof (superstep_follows_edges _ _ _ _ _ _ Hstep1) as (-> & _).
  destruct fuel as [|fuel]; [done|]. cbn [run].
  destruct (superstep workflow GRADE_DOCUMENTS st1 t1) as [[[st2 next] t2]|e]
    eqn:Hstep2; [|done].
  pose proof (superstep_follows_edges _ _ _ _ _ _ Hstep2) as (Htable & _).
  apply superstep_inv in Hstep2 as (upd & t0 & routed & Hnode & -> & _).
  apply grade_documents_graded_state in Hnode.
  intros Hrun. apply run_graded in Hrun as [Hgraded Hgen]; [|tauto|done].
  split; [exact Hgen|]. exact Hgraded.
Qed.

(** X4. When retrieval finds nothing, grading calls the grader not
    once, leaves [web_search] false and the run goes straight on to
    [GENERATE] with an empty document list: an empty retrieval does
    not by itself trigger a web search. *)
Theorem empty_retrieval_goes_to_generate (input : GraphState) (q : string)
    (t : nat) :
  retrieve input 0 = Ok (retrieved q [], t) →
  ∃ st : GraphState,
    (∀ fuel, agent (S (S fuel)) input = run workflow fuel [GENERATE] st t)
    ∧ state.documents st = Some (Some [])
    ∧ state.web_search st = Some false
    ∧ state.question st = Some q.
Proof.
  intros Hret.
  set (st1 := apply_update input (retrieved q [])).
  assert (Hgrade : grade_documents st1 t
    = Ok ({| state.documents := Some (Some []); state.question := Some q;
             state.web_search := Some false; state.generation := None;
             state.retriever := None; state.chat_history := None |}, t)).
  { unfold grade_documents, st1. cbn.
    by rewrite !union_Some_l. }
  eexists. split; [|split; [|split]].
  - intros fuel. unfold agent.
    cbn [entry_point workflow set_entry_point add_edge
      add_conditional_edges add_node new_graph run].
    rewrite (superstep_retrieve _ _ _ _ Hret). fold st1.
    rewrite (superstep_grade_documents _ _ _ _ false Hgrade); done.
  - apply union_Some_l.
  - apply union_Some_l.
  - apply union_Some_l.
Qed.

Lemma graded_lengths (documents : list Document) :
  ∀ scores : list (gmap string value),
    length documents = length scores →
    (length (omap (uncurry graded) (zip documents scores))
     ≤ length documents)%nat
    ∧ (existsb rejected scores = false
       ↔ length (omap (uncurry graded) (zip documents scores))
         = length documents).
Proof.
  induction documents as [|d rest IH]; intros [|score scores] Hlen; try done.
  injection Hlen as Hlen. destruct (IH scores Hlen) as [Hle Hiff].
  change (omap (uncurry graded) (zip (d :: rest) (score :: scores)))
    with (match graded d score with
          | Some d' => d' :: omap (uncurry graded) (zip rest scores)
          | None => omap (uncurry graded) (zip rest scores)
          end).
  assert (Hrej : rejected score
                 = match graded d score with Some _ => false | None => true end).
  { unfold rejected, graded. by destruct (truthy _). }
  cbn [existsb]. rewrite Hrej.
  destruct (graded d score); cbn [orb length].
  - split; [lia|]. rewrite Hiff. split; [by intros ->|by intros [= ->]].
  - split; [lia|]. split; [done|lia].
Qed.

(** X5. For every grading pass in which no call raises, whatever the
    answers are: the grader is called once per document, the step
    never returns more documents than it was given, and [web_search]
    is false exactly when no document was dropped. *)
Theorem flag_iff_document_dropped (st : GraphState) (t : nat) (q : string)
    (docs : list Document) (scores : list (gmap string value)) :
  state.question st = Some q →
  state.documents st = Some (Some docs) →
  grader_answers t q docs = Ok <$> scores →
  ∃ (kept : list Document) (w : bool),
    grade_documents st t
    = Ok ({| state.documents := Some (Some kept); state.question := Some q;
             state.web_search := Some w; state.generation := None;
             state.retriever := None; state.chat_history := None |},
          t + length docs)
    ∧ (length kept ≤ length docs)%nat
    ∧ (w = false ↔ length kept = length docs).
Proof.
  intros Hq Hd Hans.
  assert (Hlen : length docs = length scores).
  { rewrite <- (length_grader_answers t q docs), Hans. by rewrite length_fmap. }
  destruct (graded_lengths docs scores Hlen) as [Hle Hiff].
  eexists _, _. split; [|split; [exact Hle|exact Hiff]].
  unfold grade_documents. rewrite Hq, Hd.
  unfold mbind, M_bind, bind, getitem, ret, mret, M_ret.
  by rewrite (grade_loop_ok q docs _ [] false t Hans).
Qed.

(** X6. A failing call during the generation step fails the run with
    the call's exception: the generator's, the hallucination grader's,
    and, for an answer found grounded, the answer grader's.  The answer
    just generated is then not returned. *)
Theorem generation_failures_end_run (st : GraphState) (t : nat) (q : string)
    (docs : option (list Document)) (e : exn) :
  state.question st = Some q →
  state.documents st = Some docs →
  generation_chain t (generation_input st q docs) = Raise e
  ∨ (∃ g, generation_chain t (generation_input st q docs) = Ok g
          ∧ (hallucination_grader (S t) (docs, g) = Raise e
             ∨ (hallucination_grader (S t) (docs, g) = Ok true
                ∧ answer_grader (S (S t)) (q, g) = Raise e))) →
  ∀ fuel, run workflow (S fuel) [GENERATE] st t = Failed e.
Proof.
  intros Hq Hd Hfail fuel. cbn [run]. rewrite superstep_workflow.
  rewrite (generate_spec st t q docs Hq Hd).
  destruct Hfail as [-> | (g & -> & Hfail)]; [done|].
  rewrite (generate_update st q g docs Hq Hd).
  rewrite branch_targets_workflow.
  unfold routed_by, mbind, M_bind, bind,
    grade_generation_grounded_in_documents_and_question.
  cbn [with_generation state.question state.documents state.generation].
  rewrite Hq, Hd. unfold mbind, M_bind, bind, getitem, ret, call.
  destruct Hfail as [-> | [-> ->]]; done.
Qed.

(** X7. The run needs [question] and a retriever from its caller and
    nothing else: without [question] it fails with a [KeyError] on
    "question", without [retriever] with one on "retriever", with a
    [None] retriever with an [AttributeError], each at the first step
    and before any component is called. *)
Theorem agent_needs_question_and_retriever (fuel : nat) (input : GraphState) :
  (state.question input = None →
   agent (S fuel) input = Failed (KeyError "question"))
  ∧ (is_Some (state.question input) → state.retriever input = None →
     agent (S fuel) input = Failed (KeyError "retriever"))
  ∧ (is_Some (state.question input) → state.retriever input = Some None →
     ∃ msg, agent (S fuel) input = Failed (AttributeError msg)).
Proof.
  unfold agent. cbn [entry_point workflow set_entry_point add_edge
    add_conditional_edges add_node new_graph run].
  rewrite superstep_workflow.
  unfold retrieve, mbind, M_bind, bind, getitem, raise, ret.
  split; [|split].
  - by intros ->.
  - by intros [q ->] ->.
  - intros [q ->] ->. by eexists.
Qed.

(** X8. Web search does not recognise what it has already added: two
    web-search steps in a row leave the prior documents followed by
    the results of the first search and then those of the second, also
    when both searches return the same results. *)
Theorem web_search_twice_accumulates (st : GraphState) (t t' : nat)
    (q : string) (docs : list Document) (first second : list TavilyResult) :
  state.question st = Some q →
  state.documents st = Some (Some docs) →
  web_search_tool t q = Ok first →
  web_search_tool t' q = Ok second →
  ∃ upd upd' : GraphState,
    web_search st t = Ok (upd, S t)
    ∧ web_search (apply_update st upd) t' = Ok (upd', S t')
    ∧ state.documents (apply_update (apply_update st upd) upd')
      = Some (Some (docs ++ (to_document <$> first)
                         ++ (to_document <$> second))).
Proof.
  intros Hq Hd Hfirst Hsecond.
  pose proof (web_search_spec st t q Hq) as Hws. rewrite Hfirst, Hd in Hws.
  cbn [default from_option id] in Hws. rewrite web_search_loop_some in Hws.
  eexists _, _. split; [exact Hws|].
  rewrite (web_search_spec _ t' q); [|apply union_Some_l].
  rewrite Hsecond. split; [reflexivity|].
  cbn. rewrite !union_Some_l. cbn.
  by rewrite web_search_loop_some, <- app_assoc.
Qed.

(** X9. An answer that is grounded but does not address the question
    costs two supersteps: web search appends the provider's results to
    the documents, and [GENERATE] runs again on the longer list.  The
    relevance grader takes no part: the added documents are not
    graded. *)
Theorem escalation_appends_results (st : GraphState) (t : nat) (q g : string)
    (docs : list Document) (results : list TavilyResult) :
  state.question st = Some q →
  state.documents st = Some (Some docs) →
  generation_chain t (generation_input st q (Some docs)) = Ok g →
  hallucination_grader (S t) (Some docs, g) = Ok true →
  answer_grader (S (S t)) (q, g) = Ok false →
  web_search_tool (S (S (S t))) q = Ok results →
  ∃ st' : GraphState,
    (∀ fuel, run workflow (S (S fuel)) [GENERATE] st t
             = run workflow fuel [GENERATE] st' (S (S (S (S t)))))
    ∧ state.documents st' = Some (Some (docs ++ (to_document <$> results)))
    ∧ state.question st' = Some q
    ∧ state.generation st' = Some g.
Proof.
  intros Hq Hd Hgen Hh Ha Htool.
  pose proof (superstep_generate st t q g (Some docs) true false Hq Hd Hgen Hh
                (λ _, Ha)) as Hstep.
  pose proof (web_search_spec (with_generation st g) (S (S (S t))) q Hq) as Hws.
  rewrite Htool in Hws. cbn [with_generation state.documents] in Hws.
  rewrite Hd in Hws. cbn [default from_option id] in Hws.
  rewrite web_search_loop_some in Hws.
  eexists. split; [|split; [|split]].
  - intros fuel. cbn [run]. rewrite Hstep. cbn [next_step].
    by rewrite (superstep_web_search _ _ _ _ Hws).
  - apply union_Some_l.
  - apply union_Some_l.
  - reflexivity.
Qed.

(** X10. A retry after "not supported" hands the generator exactly
    what the failed attempt was handed, the same context, question and
    rendered history, and not the rejected answer; the new answer
    replaces the old one. *)
Theorem retry_repeats_generator_input (st : GraphState) (t : nat)
    (q g : string) (docs : option (list Document)) :
  state.question st = Some q →
  state.documents st = Some docs →
  generation_chain t (generation_input st q docs) = Ok g →
  hallucination_grader (S t) (docs, g) = Ok false →
  superstep workflow GENERATE st t
  = Ok ((with_generation st g, [GENERATE]), S (S t))
  ∧ generate (with_generation st g) (S (S t))
    = match generation_chain (S (S t)) (generation_input st q docs) with
      | Ok g' =>
          Ok ({| state.documents := Some docs; state.question := Some q;
                 state.generation := Some g'; state.web_search := None;
                 state.retriever := None; state.chat_history := None |},
              S (S (S t)))
      | Raise e => Raise e
      end
  ∧ ∀ g', with_generation (with_generation st g) g' = with_generation st g'.
Proof.
  intros Hq Hd Hgen Hh. split; [|split].
  - by rewrite (superstep_generate st t q g docs false false Hq Hd Hgen Hh).
  - by rewrite (generate_spec (with_generation st g) (S (S t)) q docs Hq Hd).
  - done.
Qed.

Lemma format_history_list (l : list entry) :
  format_history (Some l) = rendered_history l.
Proof.
  unfold rendered_history. destruct l as [|e l]; [done|].
  cbn [format_history]. rewrite history_loop_spec. cbn [app].
  by destruct (omap rendered_line (last6 (e :: l))).
Qed.

(** X11. Only the last six entries of the history count, and they are
    cut off before they are filtered: a history with six or more
    entries renders as its last six alone would, so when none of the
    last six qualifies the generator is told that there was no
    previous conversation, whatever came before. *)
Theorem history_window (older recent : list entry) :
  length recent = 6 →
  format_history (Some (older ++ recent)) = format_history (Some recent)
  ∧ (Forall (λ e, rendered_line e = None) recent →
     format_history (Some (older ++ recent)) = "No previous conversation.").
Proof.
  intros Hlen.
  assert (Hlast : last6 (older ++ recent) = recent).
  { unfold last6. rewrite length_app, Hlen.
    replace (length older + 6 - 6) with (length older) by lia.
    by rewrite drop_app_length. }
  assert (Hsame : last6 recent = recent).
  { unfold last6. rewrite Hlen. done. }
  rewrite !format_history_list. unfold rendered_history.
  rewrite Hlast, Hsame. split; [done|].
  intros Hnone.
  assert (Hempty : omap rendered_line recent = []).
  { clear -Hnone. induction Hnone as [|e l He _ IH]; [done|].
    change (omap rendered_line (e :: l))
      with (match rendered_line e with
            | Some line => line :: omap rendered_line l
            | None => omap rendered_line l
            end).
    by rewrite He. }
  by rewrite Hempty.
Qed.

Lemma rendered_line_prefix (e : entry) (line : string) :
  rendered_line e = Some line →
  (∃ s, line = "User: " +:+ s) ∨ (∃ s, line = "Assistant: " +:+ s).
Proof.
  destruct e as [d|]; [|done]. cbn.
  destruct (d !! "role") as [role|]; [|done].
  destruct (d !! "content") as [content|]; [|done].
  repeat case_bool_decide; intros [= <-]; eauto.
Qed.

Lemma join_first (sep x : string) (rest : list string) :
  ∃ s, join sep (x :: rest) = x +:+ s.
Proof.
  destruct rest as [|y rest].
  - exists EmptyString. cbn.
    clear. induction x as [|c x IH]; [done|].
    change (String c x = String c (x +:+ EmptyString)). by f_equal.
  - eexists. reflexivity.
Qed.

(** X12. What the generator receives as chat history is never empty:
    it is the placeholder, or it begins with the line of the oldest
    qualifying entry among the last six, so with "User: " or
    "Assistant: ". *)
Theorem rendered_history_shape (chat_history : option (list entry)) :
  format_history chat_history = "No previous conversation."
  ∨ (∃ s, format_history chat_history = "User: " +:+ s)
  ∨ (∃ s, format_history chat_history = "Assistant: " +:+ s).
Proof.
  destruct chat_history as [l|]; [|by left].
  rewrite format_history_list. unfold rendered_history.
  destruct (omap rendered_line (last6 l)) as [|line rest] eqn:Hlines;
    [by left|].
  right.
  assert (Hline : ∃ e, rendered_line e = Some line).
  { assert (Hin : line ∈ omap rendered_line (last6 l))
      by (rewrite Hlines; left).
    apply list_elem_of_omap in Hin as (e & _ & He). by exists e. }
  destruct Hline as [e He].
  destruct (join_first nl line rest) as [s Hs]. rewrite Hs.
  destruct (rendered_line_prefix e line He) as [[u ->] | [u ->]].
  - left. exists (u +:+ s). cbn. done.
  - right. exists (u +:+ s). cbn. done.
Qed.



End agent.

(** ** Properties of the model factories and of the settings *)

Section ai_models_properties.

Context {Client : Type}.
Variable construct : ClientCall → result Client.
Variable settings : AppSettings.

(** X13. Which client a factory method builds.  When no parameter is
    called "model", the method constructs the class of the chosen
    provider (the caller's, else the configured one) with the caller's
    model name (the configured one when the caller gives none or an
    empty one, also when the caller changes the provider) and with
    keyword arguments in which the API key of the settings, when set,
    wins over one passed by the caller, and the caller's keyword
    arguments win over the configured parameters. *)
Theorem created_model_arguments (w : wrapper) (type : ModelType)
    (models : ModelType → option ModelEntry) (model_config : ModelEntry)
    (provider : option ModelProvider) (model_name : option string)
    (kwargs : gmap string value) :
  models type = Some model_config →
  kwargs !! "model" = None →
  entry_params model_config !! "model" = None →
  let chosen := default (entry_provider model_config) provider in
  ∃ c : ClientCall,
    create_model Client construct settings w type models provider model_name
      kwargs
    = construct c
    ∧ call_class c = class_of w chosen
    ∧ call_model c
      = (if given model_name then default EmptyString model_name
         else entry_model_name model_config)
    ∧ (∀ key, key_of settings chosen = Some key → key ≠ EmptyString →
              call_kwargs c !! key_name_of chosen = Some (VStr key))
    ∧ (∀ k, k ≠ key_name_of chosen ∨ given (key_of settings chosen) = false →
            call_kwargs c !! k
            = match kwargs !! k with
              | Some v => Some v
              | None => entry_params model_config !! k
              end).
Proof.
  intros Hcfg Hkw Hcp chosen. unfold create_model. rewrite Hcfg. fold chosen.
  set (name := if given model_name then _ else _).
  set (params := kwargs ∪ entry_params model_config).
  assert (Hparams : ∀ k, params !! k
                         = match kwargs !! k with
                           | Some v => Some v
                           | None => entry_params model_config !! k
                           end).
  { intros k. unfold params. rewrite lookup_union.
    destruct (kwargs !! k), (entry_params model_config !! k); done. }
  assert (Hmodel : params !! "model" = None) by (by rewrite Hparams, Hkw).
  unfold _initialize_client.
  replace (match chosen, w with
           | COHERE, LLMModel =>
               (ChatCohere, "cohere_api_key", cohere_api_key settings)
           | COHERE, EmbeddingModel =>
               (CohereEmbeddings, "cohere_api_key", cohere_api_key settings)
           | GOOGLE, LLMModel =>
               (ChatGoogleGenerativeAI, "google_api_key",
                google_api_key settings)
           | GOOGLE, EmbeddingModel =>
               (GoogleGenerativeAIEmbeddings, "google_api_key",
                google_api_key settings)
           end)
    with (class_of w chosen, key_name_of chosen, key_of settings chosen)
    by (by destruct chosen, w).
  assert (Hname : key_name_of chosen ≠ "model") by (by destruct chosen).
  destruct (given (key_of settings chosen)) eqn:Hgiven.
  - rewrite lookup_insert_ne by done. rewrite Hmodel.
    eexists. split; [reflexivity|]. cbn. split; [done|]. split; [done|]. split.
    + intros key Hkey _. rewrite Hkey. cbn. by rewrite lookup_insert_eq.
    + intros k [Hk|Hk]; [|done]. rewrite lookup_insert_ne by done. apply Hparams.
  - rewrite Hmodel.
    eexists. split; [reflexivity|]. cbn. split; [done|]. split; [done|]. split.
    + intros key Hkey Hne. rewrite Hkey in Hgiven. cbn in Hgiven.
      by case_bool_decide.
    + intros k _. apply Hparams.
Qed.

(** X14. A factory method fails before any client is constructed when
    the configuration has no entry for the model type (a [KeyError]),
    and when a parameter called "model" comes from the caller's keyword
    arguments or from the configuration, since it collides with the
    [model=] keyword of the client call (a [TypeError]): the model is
    chosen through [model_name] only. *)
Theorem model_keyword_rejected (w : wrapper) (type : ModelType)
    (models : ModelType → option ModelEntry)
    (provider : option ModelProvider) (model_name : option string)
    (kwargs : gmap string value) :
  (models type = None →
   ∃ key, create_model Client construct settings w type models provider
            model_name kwargs = Raise (KeyError key))
  ∧ (∀ model_config, models type = Some model_config →
       is_Some (kwargs !! "model")
       ∨ is_Some (entry_params model_config !! "model") →
       ∃ msg, create_model Client construct settings w type models provider
                model_name kwargs = Raise (TypeError msg)).
Proof.
  split.
  - intros Hcfg. unfold create_model. rewrite Hcfg. by eexists.
  - intros model_config Hcfg Hmodel. unfold create_model. rewrite Hcfg.
    set (params := kwargs ∪ entry_params model_config).
    assert (Hin : is_Some (params !! "model")).
    { unfold params. rewrite lookup_union.
      destruct Hmodel as [[v ->] | [v ->]]; [by destruct (_ !! _)|].
      destruct (kwargs !! "model"); by eexists. }
    unfold _initialize_client.
    destruct (default (entry_provider model_config) provider), w;
      cbn zeta beta iota;
      match goal with
      | |- context [given ?key] => destruct (given key)
      end;
      rewrite ?lookup_insert_ne by done;
      destruct Hin as [v ->]; by eexists.
Qed.

(** X15. The database URL of the settings: an explicit, non-empty
    [database_url] is returned as it is, whatever the pieces are;
    without one the URL is composed from the four [postgres_*] pieces
    when all of them are set and non-empty; in every other case, so
    also with an empty password, there is none. *)
Theorem resolved_database_url_cases (s : AppSettings) :
  (given (database_url s) = true →
   resolved_database_url s = database_url s)
  ∧ (∀ user password server db,
       given (database_url s) = false →
       postgres_user s = Some user → user ≠ EmptyString →
       postgres_password s = Some password → password ≠ EmptyString →
       postgres_server s = Some server → server ≠ EmptyString →
       postgres_db s = Some db → db ≠ EmptyString →
       resolved_database_url s
       = Some ("postgresql+psycopg://" +:+ user +:+ ":" +:+ password
                 +:+ "@" +:+ server +:+ "/" +:+ db))
  ∧ (resolved_database_url s = None
     ↔ given (database_url s) = false
       ∧ (given (postgres_user s) = false
          ∨ given (postgres_password s) = false
          ∨ given (postgres_server s) = false
          ∨ given (postgres_db s) = false)).
Proof.
  unfold resolved_database_url. split; [|split].
  - by intros ->.
  - intros user password server db -> -> Hu -> Hp -> Hs -> Hd.
    cbn. by repeat (case_bool_decide; [done|]).
  - destruct (given (database_url s)) eqn:Hurl.
    + split; [|by intros [? _]].
      intros Hnone. rewrite Hnone in Hurl. done.
    + cbn [forallb].
      destruct (given (postgres_user s)), (given (postgres_password s)),
        (given (postgres_server s)), (given (postgres_db s)); cbn;
        (split; [intros ?; simplify_eq; (split; [done|]); auto
                |intros [_ H]; try done; decompose [or] H; done]).
Qed.

End ai_models_properties.

(** ** Concrete runs *)

Lemma grade_documents_keeps_relevant_witness :
  ∃ upd : GraphState,
    grade_documents sample.grader sample.retrieved_state 0 = Ok (upd, 2)
    ∧ state.documents upd
      = Some (Some [set_metadata sample.doc_a "relevance_score"
                      (VFloat (3 # 4)%Q)]).
Proof.
  destruct (grade_documents_keeps_relevant sample.grader sample.retrieved_state
              0 "q" [sample.doc_a; sample.doc_b] sample.grades
              eq_refl eq_refl eq_refl) as (upd & Hrun & Hdocs & _).
  exists upd. split; [exact Hrun|]. rewrite Hdocs. reflexivity.
Defined.

Lemma web_search_flag_routes_witness :
  ∃ upd : GraphState,
    superstep
      (workflow sample.grader sample.generator sample.grounded
         sample.addresses sample.search)
      GRADE_DOCUMENTS sample.retrieved_state 0
    = Ok ((apply_update sample.retrieved_state upd, [WEBSEARCH]), 2)
    ∧ state.web_search upd = Some true.
Proof.
  destruct (web_search_flag_routes sample.grader sample.generator
              sample.grounded sample.addresses sample.search
              sample.retrieved_state 0 "q" [sample.doc_a; sample.doc_b]
              sample.grades eq_refl eq_refl eq_refl)
    as (upd & w & Hrun & Hflag & Hiff & _ & Hstep).
  assert (Hw : w = true).
  { apply Hiff. exists 1, sample.doc_b, (mkGradeDocuments false (3 # 4)%Q).
    repeat split. }
  subst w. exists upd. split; [exact Hstep|exact Hflag].
Defined.

Lemma post_generation_routing_witness :
  (∃ st' t',
     superstep
       (workflow sample.grader sample.generator sample.never_grounded
          sample.addresses sample.search)
       GENERATE sample.retrieved_state 0
     = Ok ((st', [GENERATE]), t')
     ∧ state.generation st' = Some "answer"
     ∧ state.documents st' = state.documents sample.retrieved_state)
  ∧ (∃ st' t',
       superstep
         (workflow sample.grader sample.generator sample.grounded
            sample.off_topic sample.search)
         GENERATE sample.retrieved_state 0
       = Ok ((st', [WEBSEARCH]), t'))
  ∧ (∃ st',
       run
         (workflow sample.grader sample.generator sample.grounded
            sample.addresses sample.search)
         1 [GENERATE] sample.retrieved_state 0
       = Finished st').
Proof.
  split; [|split].
  - destruct (post_generation_routing sample.grader sample.generator
                sample.never_grounded sample.addresses sample.search
                sample.retrieved_state 0 "q" "answer"
                (Some [sample.doc_a; sample.doc_b]) false false
                eq_refl eq_refl eq_refl eq_refl)
      as (st' & t' & Hstep & _ & Hgen & Hdocs & _).
    { discriminate. }
    exists st', t'. split; [exact Hstep|]. split; [exact Hgen|exact Hdocs].
  - destruct (post_generation_routing sample.grader sample.generator
                sample.grounded sample.off_topic sample.search
                sample.retrieved_state 0 "q" "answer"
                (Some [sample.doc_a; sample.doc_b]) true false
                eq_refl eq_refl eq_refl eq_refl (λ _, eq_refl))
      as (st' & t' & Hstep & _).
    exists st', t'. exact Hstep.
  - destruct (post_generation_routing sample.grader sample.generator
                sample.grounded sample.addresses sample.search
                sample.retrieved_state 0 "q" "answer"
                (Some [sample.doc_a; sample.doc_b]) true true
                eq_refl eq_refl eq_refl eq_refl (λ _, eq_refl))
      as (st' & t' & _ & _ & _ & _ & _ & _ & _ & _ & Huseful & _).
    exists st'. apply (Huseful eq_refl eq_refl).
Defined.



Lemma web_search_appends_witness :
  (∃ upd : GraphState,
     web_search sample.search sample.retrieved_state 0 = Ok (upd, 1)
     ∧ state.documents upd
       = Some (Some [sample.doc_a; sample.doc_b; to_document sample.hit]))
  ∧ (∃ upd : GraphState,
       web_search sample.search sample.asked_state 0 = Ok (upd, 1)
       ∧ state.documents upd = Some (Some [to_document sample.hit])).
Proof.
  split.
  - destruct (web_search_appends sample.search sample.retrieved_state 0 "q"
                [sample.hit] eq_refl eq_refl)
      as (upd & Hrun & _ & Hdocs & _).
    { left. by eexists. }
    exists upd. split; [exact Hrun|exact Hdocs].
  - destruct (web_search_appends sample.search sample.asked_state 0 "q"
                [sample.hit] eq_refl eq_refl)
      as (upd & Hrun & _ & Hdocs & _).
    { right. discriminate. }
    exists upd. split; [exact Hrun|exact Hdocs].
Defined.

(** C5, as stated, fails when the state has no documents and the
    provider returns nothing: the step returns [None], which is not a
    document sequence. *)
Lemma web_search_without_documents_or_results :
  ∃ upd : GraphState,
    web_search sample.search_nothing sample.input 0 = Ok (upd, 1)
    ∧ state.documents upd = Some None
    ∧ ¬ ∃ documents : list Document,
          state.documents upd = Some (Some documents).
Proof.
  exists {| state.documents := Some None; state.question := Some "q";
            state.generation := None; state.web_search := None;
            state.retriever := None; state.chat_history := None |}.
  split; [reflexivity|]. split; [reflexivity|].
  intros [documents Hdocs]. discriminate Hdocs.
Qed.



(** What the step does with an answer that lacks [relevance]: the
    fallback ["no"] of the lookup is a non-empty string, so the
    document is kept. *)
Example grading_keeps_on_missing_relevance :
  grade_documents sample.grader_without_relevance
    {| state.question := Some "q"; state.generation := None;
       state.web_search := None;
       state.documents := Some (Some [sample.doc_a]);
       state.retriever := None; state.chat_history := None |} 0
  = Ok ({| state.documents :=
             Some (Some [set_metadata sample.doc_a "relevance_score"
                           (VFloat (9 # 10)%Q)]);
           state.question := Some "q";
           state.web_search := Some false;
           state.generation := None;
           state.retriever := None; state.chat_history := None |}, 1).
Proof. reflexivity. Qed.



Lemma steps_keep_question_witness :
  ∃ upd : GraphState,
    generate sample.generator sample.retrieved_state 0 = Ok (upd, 1)
    ∧ state.question upd = Some "q"
    ∧ state.documents upd = Some (Some [sample.doc_a; sample.doc_b]).
Proof.
  exists {| state.documents := Some (Some [sample.doc_a; sample.doc_b]);
            state.question := Some "q";
            state.generation := Some "answer"; state.web_search := None;
            state.retriever := None; state.chat_history := None |}.
  split; [reflexivity|].
  destruct (steps_keep_question sample.grader sample.generator
              sample.grounded sample.addresses sample.search GENERATE _
              sample.retrieved_state _ 0 1 eq_refl eq_refl)
    as (Hq & _ & Hgen).
  destruct (Hgen eq_refl) as (Hdocs & _).
  split; [exact Hq|exact Hdocs].
Defined.

Lemma web_search_returns_none_witness :
  ∃ upd : GraphState,
    web_search sample.search_nothing sample.input 0 = Ok (upd, 1)
    ∧ state.documents (apply_update sample.input upd) = Some None.
Proof.
  destruct (web_search_returns_none sample.grader sample.generator
              sample.grounded sample.addresses sample.search_nothing
              sample.input 0 "q" eq_refl (or_introl eq_refl) eq_refl)
    as (upd & Hrun & _ & Hstate & _).
  exists upd. split; [exact Hrun|exact Hstate].
Defined.

(** A whole run that is accepted at once: retrieval, grading (the one
    document is relevant), one generation. *)
Example run_accepted_at_once :
  ∃ st : GraphState,
    agent sample.grader sample.generator sample.grounded sample.addresses
      sample.search 3 sample.input
    = Finished st
    ∧ state.generation st = Some "answer"
    ∧ state.web_search st = Some false
    ∧ state.documents st
      = Some (Some [set_metadata sample.doc_a "relevance_score"
                      (VFloat (3 # 4)%Q)]).
Proof. eexists. split; [vm_compute; reflexivity|]. by vm_compute. Qed.

(** A whole run whose first answer is grounded but off the question:
    web search adds a document, and the second answer is accepted. *)
Example run_escalates_to_web_search :
  (∃ st t,
     agent sample.grader sample.generator sample.grounded
       sample.addresses_later sample.search 3 sample.input
     = Running [WEBSEARCH] st t)
  ∧ ∃ st : GraphState,
      agent sample.grader sample.generator sample.grounded
        sample.addresses_later sample.search 5 sample.input
      = Finished st
      ∧ state.documents st
        = Some (Some [ set_metadata sample.doc_a "relevance_score"
                         (VFloat (3 # 4)%Q);
                       to_document sample.hit ]).
Proof.
  split.
  - eexists _, _. vm_compute. reflexivity.
  - eexists. split; [vm_compute; reflexivity|]. by vm_compute.
Qed.

(** ** Concrete instances of the further properties *)

Lemma superstep_follows_edges_witness :
  ∃ (st' : GraphState) (t' : nat),
    superstep
      (workflow sample.grader sample.generator sample.grounded
         sample.addresses sample.search)
      GRADE_DOCUMENTS sample.retrieved_state 0
    = Ok ((st', [WEBSEARCH]), t').
Proof.
  assert (Hstep : ∃ st' next t',
    superstep
      (workflow sample.grader sample.generator sample.grounded
         sample.addresses sample.search)
      GRADE_DOCUMENTS sample.retrieved_state 0
    = Ok ((st', next), t') ∧ next ≠ [GENERATE]).
  { eexists _, _, _. split; [vm_compute; reflexivity|discriminate]. }
  destruct Hstep as (st' & next & t' & Hstep & Hne).
  destruct (superstep_follows_edges _ _ _ _ _ _ _ _ _ _ _ Hstep)
    as ([Hnext|Hnext] & _); [|done].
  exists st', t'. by rewrite <- Hnext.
Defined.

Lemma finished_run_has_answer_witness :
  ∃ (st : GraphState) (g : string),
    agent sample.grader sample.generator sample.grounded sample.addresses
      sample.search 3 sample.input
    = Finished st
    ∧ state.generation st = Some g.
Proof.
  assert (Hrun : ∃ st,
    agent sample.grader sample.generator sample.grounded sample.addresses
      sample.search 3 sample.input = Finished st).
  { eexists. vm_compute. reflexivity. }
  destruct Hrun as [st Hrun].
  destruct (finished_run_has_answer _ _ _ _ _ _ _ _ Hrun) as ([g Hg] & _).
  by exists st, g.
Defined.

Lemma empty_retrieval_goes_to_generate_witness :
  ∃ st : GraphState,
    agent sample.grader sample.generator sample.grounded sample.addresses
      sample.search 2 sample.empty_input
    = Running [GENERATE] st 1
    ∧ state.documents st = Some (Some [])
    ∧ state.web_search st = Some false.
Proof.
  destruct (empty_retrieval_goes_to_generate sample.grader sample.generator
              sample.grounded sample.addresses sample.search
              sample.empty_input "q" 1 eq_refl)
    as (st & Hrun & Hdocs & Hflag & _).
  exists st. split; [exact (Hrun 0)|]. by split.
Defined.

Lemma flag_iff_document_dropped_witness :
  ∃ kept : list Document,
    grade_documents sample.grader sample.retrieved_state 0
    = Ok ({| state.documents := Some (Some kept); state.question := Some "q";
             state.web_search := Some true; state.generation := None;
             state.retriever := None; state.chat_history := None |}, 2)
    ∧ length kept ≠ 2.
Proof.
  assert (Hans : grader_answers sample.grader 0 "q"
                    [sample.doc_a; sample.doc_b]
                  = Ok <$> (model_dump <$> sample.grades))
    by (vm_compute; reflexivity).
  destruct (flag_iff_document_dropped sample.grader sample.retrieved_state 0
              "q" [sample.doc_a; sample.doc_b]
              (model_dump <$> sample.grades) eq_refl eq_refl Hans)
    as (kept & w & Hrun & _ & Hiff).
  assert (Hw : w = true).
  { assert (Heval : ∃ x, grade_documents sample.grader sample.retrieved_state 0
                         = Ok (x, 2) ∧ state.web_search x = Some true)
      by (eexists; split; vm_compute; reflexivity).
    destruct Heval as (x & Hx & Hflag). rewrite Hrun in Hx.
    injection Hx as <-. by injection Hflag. }
  subst w. exists kept. split; [exact Hrun|].
  intros Hlen. by apply Hiff in Hlen.
Defined.

Lemma generation_failures_end_run_witness :
  run
    (workflow sample.grader sample.generator_failing sample.grounded
       sample.addresses sample.search)
    1 [GENERATE] sample.retrieved_state 0
  = Failed (ComponentError "timeout").
Proof.
  apply (generation_failures_end_run sample.grader sample.generator_failing
           sample.grounded sample.addresses sample.search
           sample.retrieved_state 0 "q" (Some [sample.doc_a; sample.doc_b])
           (ComponentError "timeout") eq_refl eq_refl).
  left. reflexivity.
Defined.

Lemma web_search_twice_accumulates_witness :
  ∃ upd upd' : GraphState,
    web_search sample.search sample.retrieved_state 0 = Ok (upd, 1)
    ∧ web_search sample.search (apply_update sample.retrieved_state upd) 1
      = Ok (upd', 2)
    ∧ state.documents
        (apply_update (apply_update sample.retrieved_state upd) upd')
      = Some (Some [ sample.doc_a; sample.doc_b;
                     to_document sample.hit; to_document sample.hit ]).
Proof.
  destruct (web_search_twice_accumulates sample.search sample.retrieved_state
              0 1 "q" [sample.doc_a; sample.doc_b] [sample.hit] [sample.hit]
              eq_refl eq_refl eq_refl eq_refl)
    as (upd & upd' & Hfirst & Hsecond & Hdocs).
  exists upd, upd'. split; [exact Hfirst|]. split; [exact Hsecond|].
  exact Hdocs.
Defined.

Lemma escalation_appends_results_witness :
  ∃ st' : GraphState,
    run
      (workflow sample.grader sample.generator sample.grounded
         sample.off_topic sample.search)
      2 [GENERATE] sample.retrieved_state 0
    = Running [GENERATE] st' 4
    ∧ state.documents st'
      = Some (Some [sample.doc_a; sample.doc_b; to_document sample.hit]).
Proof.
  destruct (escalation_appends_results sample.grader sample.generator
              sample.grounded sample.off_topic sample.search
              sample.retrieved_state 0 "q" "answer"
              [sample.doc_a; sample.doc_b] [sample.hit]
              eq_refl eq_refl eq_refl eq_refl eq_refl eq_refl)
    as (st' & Hrun & Hdocs & _).
  exists st'. split; [exact (Hrun 0)|exact Hdocs].
Defined.

Lemma retry_repeats_generator_input_witness :
  superstep
    (workflow sample.grader sample.generator sample.never_grounded
       sample.addresses sample.search)
    GENERATE sample.retrieved_state 0
  = Ok ((with_generation sample.retrieved_state "answer", [GENERATE]), 2).
Proof.
  exact (proj1 (retry_repeats_generator_input sample.grader sample.generator
                  sample.never_grounded sample.addresses sample.search
                  sample.retrieved_state 0 "q" "answer"
                  (Some [sample.doc_a; sample.doc_b])
                  eq_refl eq_refl eq_refl eq_refl)).
Defined.

Lemma history_window_witness :
  format_history (Some (sample.user_turn :: sample.six_system_turns))
  = "No previous conversation.".
Proof.
  apply (history_window [sample.user_turn] sample.six_system_turns eq_refl).
  repeat constructor.
Defined.

Lemma created_model_arguments_witness :
  ∃ c : ClientCall,
    create_generator_model ClientCall Ok sample.some_settings default_models
      None None {[ "temperature" := VInt 1; "cohere_api_key" := VStr "mine" ]}
    = Ok c
    ∧ call_class c = ChatCohere
    ∧ call_model c = "command-a-03-2025"
    ∧ call_kwargs c !! "cohere_api_key" = Some (VStr "settings-key")
    ∧ call_kwargs c !! "temperature" = Some (VInt 1).
Proof.
  assert (Hkw : ({[ "temperature" := VInt 1;
                     "cohere_api_key" := VStr "mine" ]} : gmap string value)
                  !! "model" = None) by (vm_compute; reflexivity).
  assert (Hcp : ({[ "temperature" := VFloat (3 # 10)%Q ]} : gmap string value)
                  !! "model" = None) by (vm_compute; reflexivity).
  destruct (created_model_arguments (Client := ClientCall) Ok
              sample.some_settings LLMModel GENERATOR default_models _
              None None
              {[ "temperature" := VInt 1; "cohere_api_key" := VStr "mine" ]}
              eq_refl Hkw Hcp)
    as (c & Hrun & Hclass & Hmodel & Hkey & Hother).
  exists c. split; [exact Hrun|]. split; [exact Hclass|].
  split; [exact Hmodel|]. split.
  - by apply (Hkey "settings-key").
  - rewrite (Hother "temperature"); [vm_compute; reflexivity|by left].
Defined.

